(** * grants-app: the record service of [server.js] over its two tables

    A shallow embedding of [src/server.js]: the SQLite schema (tables
    [clients] and [grants]), the prepared statements the handlers run, and
    the nine JSON handlers, followed by the properties of the CRUD contract.

    Modelling choices, each taken from the source:
    - the store is the pair of tables; every statement is run in autocommit
      mode (the source never opens a transaction), so a handler is a state
      transformer that may throw after some of its statements took effect;
    - better-sqlite3 opens its connection with foreign-key enforcement on
      (its SQLite is built with SQLITE_DEFAULT_FOREIGN_KEYS=1), so the
      [FOREIGN KEY ... ON DELETE CASCADE] clause of the schema is enforced;
    - [crypto.randomBytes] and [datetime('now')] are inputs of a handler;
    - request bodies carry the types of the data model: a text field is a
      string, [null] or absent, [match_pct] is an integer, [null] or absent
      (what better-sqlite3 does when asked to bind a boolean, an array or
      an object, and SQLite's column-affinity conversions, are outside the
      model);
    - a handler that throws is answered by Express's default error handler
      (status 500); the model keeps the exception instead. *)

From stdpp Require Import base strings gmap list sorting.
From Stdlib Require Import ZArith Sorted Permutation.

#[local] Set Warnings "-register-all".
#[local] Open Scope Z_scope.

(** ** JavaScript values read from a request *)

(** The value of a property of the parsed body: [undefined] when the
    property is absent, [null], or a value of the expected type. *)
Inductive js (A : Type) : Type :=
| Undefined
| Null
| Val (a : A).
Arguments Undefined {A}.
Arguments Null {A}.
Arguments Val {A} a.

(** JavaScript truthiness at the two base types the handlers test. *)
Class Truthy (A : Type) := truthy : A → bool.

#[global] Instance string_truthy : Truthy string :=
  λ s, match s with EmptyString => false | String _ _ => true end.
#[global] Instance Z_truthy : Truthy Z :=
  λ n, negb (n =? 0).

(** [v || d] *)
Definition js_or {A} `{Truthy A} (v : js A) (d : A) : A :=
  match v with
  | Val a => if truthy a then a else d
  | Null | Undefined => d
  end.
Infix "|||" := js_or (at level 50, left associativity).

(** What better-sqlite3 binds for a value: [undefined] and [null] are both
    bound as SQL NULL. *)
Definition bind {A} (v : js A) : option A :=
  match v with
  | Val a => Some a
  | Null | Undefined => None
  end.

(** ** JSON sent back by [res.json] *)

Inductive json : Type :=
| JNull
| JBool (b : bool)
| JNum (n : Z)
| JStr (s : string)
| JArr (l : list json)
| JObj (o : gmap string json).

Record response := Response { status : Z; body : json }.

(** [res.json(x)] answers with status 200 *)
Definition res_json (x : json) : response := Response 200 x.
(** [res.status(n).json(x)] *)
Definition res_status_json (n : Z) (x : json) : response := Response n x.

Definition text_json (o : option string) : json :=
  match o with Some s => JStr s | None => JNull end.
Definition int_json (o : option Z) : json :=
  match o with Some n => JNum n | None => JNull end.

(** ** The schema *)

(** [CREATE TABLE clients]: [id] is the primary key, [name] is NOT NULL,
    the two timestamps are always filled by [datetime('now')]. *)
Module ClientRow.
Record t := Build {
  id : string;
  name : string;
  contact : option string;
  sector : option string;
  email : option string;
  phone : option string;
  message : option string;
  presenter : option string;
  created_at : string;
  updated_at : string
}.
End ClientRow.

(** [CREATE TABLE grants]: a rowid table ([id] is a TEXT primary key, so
    the hidden [rowid] is assigned by the engine); [client_id] is NOT NULL
    and references [clients(id)]; [sort_order] is always given an integer
    (the column default 0 or the index of the bulk insert). *)
Module GrantRow.
Record t := Build {
  rowid : Z;
  id : string;
  client_id : string;
  name : option string;
  org : option string;
  cat : option string;
  amount : option string;
  cover : option string;
  deadline : option string;
  status : option string;
  match_pct : option Z;
  notes : option string;
  sort_order : Z
}.
End GrantRow.

(** The database: the rows of each table, in the order they were inserted. *)
Record db := Db {
  clients : list ClientRow.t;
  grants : list GrantRow.t
}.

(** The state after [db.exec(CREATE TABLE IF NOT EXISTS ...)] on a new file. *)
Definition empty_db : db := Db [] [].

(** ** Request bodies *)

Module ClientBody.
Record t := Build {
  name : js string;
  contact : js string;
  sector : js string;
  email : js string;
  phone : js string;
  message : js string;
  presenter : js string
}.
End ClientBody.

Module GrantBody.
Record t := Build {
  name : js string;
  org : js string;
  cat : js string;
  amount : js string;
  cover : js string;
  deadline : js string;
  status : js string;
  match_pct : js Z;
  notes : js string
}.
End GrantBody.

(** The body of the bulk replace: [{grants: [...]}]; an element of the
    array is an object or [null]. *)
Module BulkBody.
Record t := Build {
  grants : js (list (js GrantBody.t))
}.
End BulkBody.

(** ** Exceptions and the handler monad *)

Inductive constraint := NOT_NULL | PRIMARY_KEY | FOREIGN_KEY.

Inductive exn :=
| TypeError
| SqliteError (c : constraint).

Inductive result (A : Type) : Type :=
| Ok (a : A)
| Throw (e : exn).
Arguments Ok {A} a.
Arguments Throw {A} e.

(** A computation over the store. A statement that throws leaves the store
    as the statements before it left it: nothing is rolled back. *)
Definition M (A : Type) : Type := db → db * result A.

#[global] Instance M_ret : MRet M := λ A a d, (d, Ok a).
#[global] Instance M_bind : MBind M := λ A B k m d,
  match m d with
  | (d', Ok a) => k a d'
  | (d', Throw e) => (d', Throw e)
  end.

Definition throw {A} (e : exn) : M A := λ d, (d, Throw e).
(** read the store (a SELECT) *)
Definition query {A} (q : db → A) : M A := λ d, (d, Ok (q d)).
(** run a statement that changes the store and cannot fail *)
Definition exec (f : db → db) : M unit := λ d, (f d, Ok tt).

(** ** ORDER BY *)

(** The rows of a query sorted by a key order; rows that compare equal keep
    the order in which the scan produced them. *)
Section order_by.
Context {A : Type} (R : relation A) `{!RelDecision R}.

Fixpoint insert_row (x : A) (l : list A) : list A :=
  match l with
  | [] => [x]
  | y :: l' => if decide (R x y) then x :: l else y :: insert_row x l'
  end.

Definition order_by (l : list A) : list A := foldr insert_row [] l.
End order_by.

(** [ORDER BY sort_order, rowid] *)
Definition by_sort_order_rowid (g1 g2 : GrantRow.t) : Prop :=
  GrantRow.sort_order g1 < GrantRow.sort_order g2
  ∨ (GrantRow.sort_order g1 = GrantRow.sort_order g2
     ∧ GrantRow.rowid g1 ≤ GrantRow.rowid g2).

#[global] Instance by_sort_order_rowid_dec : RelDecision by_sort_order_rowid :=
  λ g1 g2,
    decide (GrantRow.sort_order g1 < GrantRow.sort_order g2
            ∨ (GrantRow.sort_order g1 = GrantRow.sort_order g2
               ∧ GrantRow.rowid g1 ≤ GrantRow.rowid g2)).

(** [ORDER BY created_at DESC]: the timestamps are text, compared bytewise *)
Definition by_created_at_desc (c1 c2 : ClientRow.t) : Prop :=
  String.leb (ClientRow.created_at c2) (ClientRow.created_at c1) = true.

#[global] Instance by_created_at_desc_dec : RelDecision by_created_at_desc :=
  λ c1 c2,
    decide (String.leb (ClientRow.created_at c2) (ClientRow.created_at c1)
            = true).

(** ** The prepared statements *)

(** [SELECT * FROM clients ORDER BY created_at DESC]. SQL leaves the order
    of clients with equal timestamps open; here they stay in scan order,
    and no property below depends on it. *)
Definition select_clients (d : db) : list ClientRow.t :=
  order_by by_created_at_desc (clients d).

(** [SELECT * FROM clients WHERE id = ?], read with [.get]: the first row
    or [undefined] *)
Definition select_client (id : string) (d : db) : option ClientRow.t :=
  head (filter (λ c, ClientRow.id c = id) (clients d)).

(** [SELECT * FROM grants WHERE client_id = ? ORDER BY sort_order, rowid] *)
Definition select_grants (client_id : string) (d : db) : list GrantRow.t :=
  order_by by_sort_order_rowid
    (filter (λ g, GrantRow.client_id g = client_id) (grants d)).

(** The rowid the engine gives a new row of a rowid table: one more than
    the largest rowid in use, 1 in an empty table. *)
Definition next_rowid (l : list GrantRow.t) : Z :=
  foldr (λ g m, Z.max (GrantRow.rowid g) m) 0 l + 1.

(** [INSERT INTO clients (id, name, contact, sector, email, phone, message,
    presenter) VALUES (?, ?, ?, ?, ?, ?, ?, ?)]; [created_at] and
    [updated_at] take their default [datetime('now')]. *)
Definition insert_client (now : string) (id : string) (name : option string)
    (contact sector email phone message presenter : option string) : M unit :=
  λ d,
    match name with
    | None => (d, Throw (SqliteError NOT_NULL))
    | Some name =>
        if decide (id ∈ ClientRow.id <$> clients d)
        then (d, Throw (SqliteError PRIMARY_KEY))
        else (Db (clients d ++
                    [ClientRow.Build id name contact sector email phone
                       message presenter now now])
                 (grants d),
              Ok tt)
    end.

(** [UPDATE clients SET name=?, contact=?, sector=?, email=?, phone=?,
    message=?, presenter=?, updated_at=datetime('now') WHERE id=?] *)
Definition update_client (now : string) (name : option string)
    (contact sector email phone message presenter : option string)
    (id : string) : M unit :=
  λ d,
    if decide (id ∈ ClientRow.id <$> clients d) then
      match name with
      | None => (d, Throw (SqliteError NOT_NULL))
      | Some name =>
          (Db ((λ c, if decide (ClientRow.id c = id)
                     then ClientRow.Build (ClientRow.id c) name contact sector
                            email phone message presenter
                            (ClientRow.created_at c) now
                     else c) <$> clients d)
              (grants d),
           Ok tt)
      end
    else (d, Ok tt).

(** [DELETE FROM clients WHERE id = ?]; when a row is deleted, the grants
    that reference it go with it ([ON DELETE CASCADE]). *)
Definition delete_client (id : string) : M unit :=
  exec (λ d,
    Db (filter (λ c, ClientRow.id c ≠ id) (clients d))
       (if decide (id ∈ ClientRow.id <$> clients d)
        then filter (λ g, GrantRow.client_id g ≠ id) (grants d)
        else grants d)).

(** [INSERT INTO grants (id, client_id, name, org, cat, amount, cover,
    deadline, status, match_pct, notes, sort_order) VALUES (?, ..., ?)] *)
Definition insert_grant (id client_id : string)
    (name org cat amount cover deadline status : option string)
    (match_pct : option Z) (notes : option string) (sort_order : Z) : M unit :=
  λ d,
    if decide (id ∈ GrantRow.id <$> grants d)
    then (d, Throw (SqliteError PRIMARY_KEY))
    else if decide (client_id ∈ ClientRow.id <$> clients d)
    then (Db (clients d)
             (grants d ++
                [GrantRow.Build (next_rowid (grants d)) id client_id name org
                   cat amount cover deadline status match_pct notes
                   sort_order]),
          Ok tt)
    else (d, Throw (SqliteError FOREIGN_KEY)).

(** [sort_order INTEGER DEFAULT 0] *)
Definition DEFAULT_sort_order : Z := 0.

(** [INSERT INTO grants (id, client_id, name, org, cat, amount, cover,
    deadline, status, match_pct, notes) VALUES (?, ..., ?)]: [sort_order]
    takes its default. *)
Definition insert_grant_default_order (id client_id : string)
    (name org cat amount cover deadline status : option string)
    (match_pct : option Z) (notes : option string) : M unit :=
  insert_grant id client_id name org cat amount cover deadline status
    match_pct notes DEFAULT_sort_order.

(** [UPDATE grants SET name=?, org=?, cat=?, amount=?, cover=?, deadline=?,
    status=?, match_pct=?, notes=? WHERE id=?] *)
Definition update_grant
    (name org cat amount cover deadline status : option string)
    (match_pct : option Z) (notes : option string) (id : string) : M unit :=
  exec (λ d,
    Db (clients d)
       ((λ g, if decide (GrantRow.id g = id)
              then GrantRow.Build (GrantRow.rowid g) (GrantRow.id g)
                     (GrantRow.client_id g) name org cat amount cover
                     deadline status match_pct notes (GrantRow.sort_order g)
              else g) <$> grants d)).

(** [DELETE FROM grants WHERE id = ?] *)
Definition delete_grant (id : string) : M unit :=
  exec (λ d, Db (clients d) (filter (λ g, GrantRow.id g ≠ id) (grants d))).

(** [DELETE FROM grants WHERE client_id = ?] *)
Definition delete_grants_of (client_id : string) : M unit :=
  exec (λ d, Db (clients d)
                (filter (λ g, GrantRow.client_id g ≠ client_id) (grants d))).

(** ** Rows as the objects [.all()] and [.get()] return *)

Definition client_obj (c : ClientRow.t) : gmap string json :=
  list_to_map
    [ ("id", JStr (ClientRow.id c));
      ("name", JStr (ClientRow.name c));
      ("contact", text_json (ClientRow.contact c));
      ("sector", text_json (ClientRow.sector c));
      ("email", text_json (ClientRow.email c));
      ("phone", text_json (ClientRow.phone c));
      ("message", text_json (ClientRow.message c));
      ("presenter", text_json (ClientRow.presenter c));
      ("created_at", JStr (ClientRow.created_at c));
      ("updated_at", JStr (ClientRow.updated_at c)) ].

Definition grant_obj (g : GrantRow.t) : gmap string json :=
  list_to_map
    [ ("id", JStr (GrantRow.id g));
      ("client_id", JStr (GrantRow.client_id g));
      ("name", text_json (GrantRow.name g));
      ("org", text_json (GrantRow.org g));
      ("cat", text_json (GrantRow.cat g));
      ("amount", text_json (GrantRow.amount g));
      ("cover", text_json (GrantRow.cover g));
      ("deadline", text_json (GrantRow.deadline g));
      ("status", text_json (GrantRow.status g));
      ("match_pct", int_json (GrantRow.match_pct g));
      ("notes", text_json (GrantRow.notes g));
      ("sort_order", JNum (GrantRow.sort_order g)) ].

(** ** Configuration and middleware *)

(** [process.env] *)
Record process_env := Env { ADMIN_PASSWORD : js string }.

(** [const ADMIN_PASS = process.env.ADMIN_PASSWORD || 'grants2024'] *)
Definition ADMIN_PASS (env : process_env) : string :=
  ADMIN_PASSWORD env ||| "grants2024".

(** [{ error: 'Unauthorized' }], [{ error: 'Not found' }], [{ ok: true }] *)
Definition error_obj (msg : string) : json := JObj {[ "error" := JStr msg ]}.
Definition ok_true : json := JObj {[ "ok" := JBool true ]}.

(** [requireAdmin]: [auth] is [req.headers['x-admin-key']], [None] when the
    header is absent; [next] is the handler of the route. *)
Definition requireAdmin (env : process_env) (auth : option string)
    (next : M response) : M response :=
  if decide (auth ≠ Some (ADMIN_PASS env))
  then mret (res_status_json 401 (error_obj "Unauthorized"))
  else next.

(** ** The handlers *)

(** the default of [presenter], in the schema and in both client handlers *)
Definition DEFAULT_presenter : string := "מענקים בקליק".

(** [GET /api/clients] *)
Definition get_api_clients (env : process_env) (auth : option string)
    : M response :=
  requireAdmin env auth (
    clients ← query select_clients;
    result ← query (λ d,
      (λ c, JObj (<["grants" :=
                     JArr ((λ g, JObj (grant_obj g)) <$>
                           select_grants (ClientRow.id c) d)]>
                  (client_obj c))) <$> clients);
    mret (res_json (JArr result))).

(** [({ notes, ...g }) => g] *)
Definition without_notes (g : gmap string json) : gmap string json :=
  delete "notes" g.

(** [GET /api/client/:id], the public read *)
Definition get_api_client (id : string) : M response :=
  client ← query (select_client id);
  match client with
  | None => mret (res_status_json 404 (error_obj "Not found"))
  | Some client =>
      grants ← query (select_grants (ClientRow.id client));
      let publicGrants := (λ g, JObj (without_notes (grant_obj g))) <$> grants in
      mret (res_json (JObj (<["grants" := JArr publicGrants]>
                              (client_obj client))))
  end.

(** [{ id, name }]: [JSON.stringify] leaves out a property that is
    [undefined]. *)
Definition id_name_obj (id : string) (name : js string) : json :=
  JObj (match name with
        | Undefined => {[ "id" := JStr id ]}
        | Null => <["name" := JNull]> {[ "id" := JStr id ]}
        | Val s => <["name" := JStr s]> {[ "id" := JStr id ]}
        end).

(** [POST /api/clients]; [randomBytes] is the result of
    [crypto.randomBytes(8).toString('hex')], [now] of [datetime('now')]. *)
Definition post_api_clients (env : process_env) (now randomBytes : string)
    (auth : option string) (body : ClientBody.t) : M response :=
  requireAdmin env auth (
    let id := randomBytes in
    insert_client now id (bind (ClientBody.name body))
      (Some (ClientBody.contact body ||| ""))
      (Some (ClientBody.sector body ||| ""))
      (Some (ClientBody.email body ||| ""))
      (Some (ClientBody.phone body ||| ""))
      (Some (ClientBody.message body ||| ""))
      (Some (ClientBody.presenter body ||| DEFAULT_presenter));;
    mret (res_json (id_name_obj id (ClientBody.name body)))).

(** [PUT /api/clients/:id] *)
Definition put_api_clients_id (env : process_env) (now : string)
    (auth : option string) (id : string) (body : ClientBody.t) : M response :=
  requireAdmin env auth (
    update_client now (bind (ClientBody.name body))
      (Some (ClientBody.contact body ||| ""))
      (Some (ClientBody.sector body ||| ""))
      (Some (ClientBody.email body ||| ""))
      (Some (ClientBody.phone body ||| ""))
      (Some (ClientBody.message body ||| ""))
      (Some (ClientBody.presenter body ||| DEFAULT_presenter))
      id;;
    mret (res_json ok_true)).

(** [DELETE /api/clients/:id] *)
Definition delete_api_clients_id (env : process_env) (auth : option string)
    (id : string) : M response :=
  requireAdmin env auth (
    delete_client id;;
    mret (res_json ok_true)).

(** [POST /api/clients/:clientId/grants] *)
Definition post_api_clients_grants (env : process_env) (randomBytes : string)
    (auth : option string) (clientId : string) (body : GrantBody.t)
    : M response :=
  requireAdmin env auth (
    let id := randomBytes in
    insert_grant_default_order id clientId
      (Some (GrantBody.name body ||| ""))
      (Some (GrantBody.org body ||| ""))
      (Some (GrantBody.cat body ||| ""))
      (Some (GrantBody.amount body ||| ""))
      (Some (GrantBody.cover body ||| ""))
      (Some (GrantBody.deadline body ||| ""))
      (Some (GrantBody.status body ||| "open"))
      (Some (GrantBody.match_pct body ||| 70))
      (Some (GrantBody.notes body ||| ""));;
    mret (res_json (JObj {[ "id" := JStr id ]}))).

(** [PUT /api/grants/:id] *)
Definition put_api_grants_id (env : process_env) (auth : option string)
    (id : string) (body : GrantBody.t) : M response :=
  requireAdmin env auth (
    update_grant
      (Some (GrantBody.name body ||| ""))
      (Some (GrantBody.org body ||| ""))
      (Some (GrantBody.cat body ||| ""))
      (Some (GrantBody.amount body ||| ""))
      (Some (GrantBody.cover body ||| ""))
      (Some (GrantBody.deadline body ||| ""))
      (Some (GrantBody.status body ||| "open"))
      (Some (GrantBody.match_pct body ||| 70))
      (Some (GrantBody.notes body ||| ""))
      id;;
    mret (res_json ok_true)).

(** [DELETE /api/grants/:id] *)
Definition delete_api_grants_id (env : process_env) (auth : option string)
    (id : string) : M response :=
  requireAdmin env auth (
    delete_grant id;;
    mret (res_json ok_true)).

(** Reading the properties of an element [g] of the submitted array:
    [g.name] throws a TypeError when [g] is [null]. *)
Definition properties (g : js GrantBody.t) : M GrantBody.t :=
  match g with
  | Val g => mret g
  | Null | Undefined => throw TypeError
  end.

(** [l.forEach((x, i) => ...)], from index [i] on *)
Fixpoint forEach_from {A} (i : nat) (l : list A) (f : A → nat → M unit)
    : M unit :=
  match l with
  | [] => mret tt
  | x :: l' => f x i;; forEach_from (S i) l' f
  end.

(** [grants.forEach(...)]: a TypeError when [grants] is not an array *)
Definition forEach {A} (grants : js (list A)) (f : A → nat → M unit)
    : M unit :=
  match grants with
  | Val l => forEach_from 0 l f
  | Null | Undefined => throw TypeError
  end.

(** The callback [(g, i) => { ... }] of the bulk replace; [randomBytes i]
    is the identifier drawn in the call for index [i]. *)
Definition bulk_callback (randomBytes : nat → string) (clientId : string)
    (g : js GrantBody.t) (i : nat) : M unit :=
  let id := randomBytes i in
  g ← properties g;
  insert_grant id clientId
    (Some (GrantBody.name g ||| ""))
    (Some (GrantBody.org g ||| ""))
    (Some (GrantBody.cat g ||| ""))
    (Some (GrantBody.amount g ||| ""))
    (Some (GrantBody.cover g ||| ""))
    (Some (GrantBody.deadline g ||| ""))
    (Some (GrantBody.status g ||| "open"))
    (Some (GrantBody.match_pct g ||| 70))
    (Some (GrantBody.notes g ||| ""))
    (Z.of_nat i).

(** [PUT /api/clients/:clientId/grants], the bulk replace *)
Definition put_api_clients_grants (env : process_env)
    (randomBytes : nat → string) (auth : option string) (clientId : string)
    (body : BulkBody.t) : M response :=
  requireAdmin env auth (
    let grants := BulkBody.grants body in
    delete_grants_of clientId;;
    forEach grants (bulk_callback randomBytes clientId);;
    mret (res_json ok_true)).

(** ** Requests and reachable stores *)

(** A request to one of the nine JSON routes, with what the handler reads
    from its environment while it runs. *)
Inductive request :=
| GET_api_clients (auth : option string)
| GET_api_client (id : string)
| POST_api_clients (now randomBytes : string) (auth : option string)
    (body : ClientBody.t)
| PUT_api_clients_id (now : string) (auth : option string) (id : string)
    (body : ClientBody.t)
| DELETE_api_clients_id (auth : option string) (id : string)
| POST_api_clients_grants (randomBytes : string) (auth : option string)
    (clientId : string) (body : GrantBody.t)
| PUT_api_grants_id (auth : option string) (id : string) (body : GrantBody.t)
| DELETE_api_grants_id (auth : option string) (id : string)
| PUT_api_clients_grants (randomBytes : nat → string) (auth : option string)
    (clientId : string) (body : BulkBody.t).

Definition handle (env : process_env) (r : request) : M response :=
  match r with
  | GET_api_clients auth => get_api_clients env auth
  | GET_api_client id => get_api_client id
  | POST_api_clients now rnd auth body => post_api_clients env now rnd auth body
  | PUT_api_clients_id now auth id body => put_api_clients_id env now auth id body
  | DELETE_api_clients_id auth id => delete_api_clients_id env auth id
  | POST_api_clients_grants rnd auth cid body =>
      post_api_clients_grants env rnd auth cid body
  | PUT_api_grants_id auth id body => put_api_grants_id env auth id body
  | DELETE_api_grants_id auth id => delete_api_grants_id env auth id
  | PUT_api_clients_grants rnd auth cid body =>
      put_api_clients_grants env rnd auth cid body
  end.

(** The stores the server can be in: the empty database after any sequence
    of requests, whatever their outcome. *)
Inductive reachable (env : process_env) : db → Prop :=
| reachable_empty : reachable env empty_db
| reachable_step d r : reachable env d → reachable env (handle env r d).1.

(** Running a list of requests, for examples. *)
Definition run (env : process_env) (rs : list request) (d : db) : db :=
  foldl (λ d r, (handle env r d).1) d rs.

(** * Vocabulary of the properties *)

(** ** The field-default policy, as a relation

    [defaults_to d v x]: the request value [v] is stored as [x] under the
    default [d]: an absent, [null] or falsy value is stored as [d], any
    other value as itself. *)
Inductive defaults_to {A} `{Truthy A} (d : A) : js A → A → Prop :=
| absent_default : defaults_to d Undefined d
| null_default : defaults_to d Null d
| falsy_default a : truthy a = false → defaults_to d (Val a) d
| truthy_kept a : truthy a = true → defaults_to d (Val a) a.

(** a cell that holds the value of [v] under the default [d], and so is
    not NULL *)
Definition stored_with_default {A} `{Truthy A} (d : A) (v : js A)
    (cell : option A) : Prop :=
  ∃ x, cell = Some x ∧ defaults_to d v x.

(** the optional columns of a client row hold the fields of a body *)
Definition client_fields_stored (b : ClientBody.t) (c : ClientRow.t) : Prop :=
  stored_with_default "" (ClientBody.contact b) (ClientRow.contact c)
  ∧ stored_with_default "" (ClientBody.sector b) (ClientRow.sector c)
  ∧ stored_with_default "" (ClientBody.email b) (ClientRow.email c)
  ∧ stored_with_default "" (ClientBody.phone b) (ClientRow.phone c)
  ∧ stored_with_default "" (ClientBody.message b) (ClientRow.message c)
  ∧ stored_with_default DEFAULT_presenter (ClientBody.presenter b)
      (ClientRow.presenter c).

(** the mutable columns of a grant row hold the fields of a body *)
Definition grant_fields_stored (b : GrantBody.t) (g : GrantRow.t) : Prop :=
  stored_with_default "" (GrantBody.name b) (GrantRow.name g)
  ∧ stored_with_default "" (GrantBody.org b) (GrantRow.org g)
  ∧ stored_with_default "" (GrantBody.cat b) (GrantRow.cat g)
  ∧ stored_with_default "" (GrantBody.amount b) (GrantRow.amount g)
  ∧ stored_with_default "" (GrantBody.cover b) (GrantRow.cover g)
  ∧ stored_with_default "" (GrantBody.deadline b) (GrantRow.deadline g)
  ∧ stored_with_default "open" (GrantBody.status b) (GrantRow.status g)
  ∧ stored_with_default 70 (GrantBody.match_pct b) (GrantRow.match_pct g)
  ∧ stored_with_default "" (GrantBody.notes b) (GrantRow.notes g).

(** every grant references a client of the store *)
Definition references_ok (d : db) : Prop :=
  ∀ g, g ∈ grants d → GrantRow.client_id g ∈ ClientRow.id <$> clients d.

(** [x] occurs before [y] in [l] *)
Definition before {A} (x y : A) (l : list A) : Prop :=
  ∃ l1 l2 l3, l = l1 ++ x :: l2 ++ y :: l3.

(** the property of an object holds the value of [v] under the default [d] *)
Definition returned_with_default {A} `{Truthy A} (to_json : A → json) (d : A)
    (v : js A) (field : option json) : Prop :=
  ∃ x, field = Some (to_json x) ∧ defaults_to d v x.

Definition client_fields_returned (b : ClientBody.t) (o : gmap string json)
    : Prop :=
  returned_with_default JStr "" (ClientBody.contact b) (o !! "contact")
  ∧ returned_with_default JStr "" (ClientBody.sector b) (o !! "sector")
  ∧ returned_with_default JStr "" (ClientBody.email b) (o !! "email")
  ∧ returned_with_default JStr "" (ClientBody.phone b) (o !! "phone")
  ∧ returned_with_default JStr "" (ClientBody.message b) (o !! "message")
  ∧ returned_with_default JStr DEFAULT_presenter (ClientBody.presenter b)
      (o !! "presenter").

Definition grant_fields_returned (b : GrantBody.t) (o : gmap string json)
    : Prop :=
  returned_with_default JStr "" (GrantBody.name b) (o !! "name")
  ∧ returned_with_default JStr "" (GrantBody.org b) (o !! "org")
  ∧ returned_with_default JStr "" (GrantBody.cat b) (o !! "cat")
  ∧ returned_with_default JStr "" (GrantBody.amount b) (o !! "amount")
  ∧ returned_with_default JStr "" (GrantBody.cover b) (o !! "cover")
  ∧ returned_with_default JStr "" (GrantBody.deadline b) (o !! "deadline")
  ∧ returned_with_default JStr "open" (GrantBody.status b) (o !! "status")
  ∧ returned_with_default JNum 70 (GrantBody.match_pct b) (o !! "match_pct")
  ∧ returned_with_default JStr "" (GrantBody.notes b) (o !! "notes").


(** [row] is what the bulk replace inserts for the [k]-th submitted grant *)
Definition bulk_row (randomBytes : nat → string) (clientId : string)
    (k : nat) (g : GrantBody.t) (row : GrantRow.t) : Prop :=
  GrantRow.id row = randomBytes k
  ∧ GrantRow.client_id row = clientId
  ∧ GrantRow.sort_order row = Z.of_nat k
  ∧ grant_fields_stored g row.

(** [m] keeps [P]: whatever [m] returns or throws, the store it leaves
    satisfies [P] when the store it started from did. *)
Definition preserves (P : db → Prop) {A} (m : M A) : Prop :=
  ∀ d, P d → P (m d).1.


(** ** Sample data *)

Definition env0 : process_env := Env Undefined.
Definition key0 : option string := Some "grants2024".

Definition acme : ClientBody.t :=
  ClientBody.Build (Val "Acme") Undefined (Val "Tech") Undefined Null
    Undefined Undefined.

Definition grant_named (name : string) : GrantBody.t :=
  GrantBody.Build (Val name) Undefined Null (Val "") Undefined Undefined
    Undefined (Val 0) (Val "internal").

(** one client, [c1], with two grants created one by one *)
Definition store0 : db :=
  run env0
    [ POST_api_clients "2024-01-01 10:00:00" "c1" key0 acme;
      POST_api_clients_grants "g1" key0 "c1" (grant_named "A");
      POST_api_clients_grants "g2" key0 "c1" (grant_named "B") ]
    empty_db.

Definition ids0 (i : nat) : string :=
  match i with
  | 0 => "n0"
  | 1 => "n1"
  | _ => "n2"
  end%nat.

(** ** Further vocabulary: keys, rowids, requests *)

(** the primary keys: no two rows of a table share an [id] *)
Definition keys_unique (d : db) : Prop :=
  NoDup (ClientRow.id <$> clients d) ∧ NoDup (GrantRow.id <$> grants d).

(** the rowids of the grants table grow along the table, so the order of
    the table is the order of the rowids *)
Definition rowids_increasing (d : db) : Prop :=
  StronglySorted (λ g1 g2, GrantRow.rowid g1 < GrantRow.rowid g2) (grants d).


(** the routes that run at most one statement that changes the store *)
Definition single_statement (r : request) : bool :=
  match r with
  | PUT_api_clients_grants _ _ _ _ => false
  | _ => true
  end.

(** the credential a request carries, [None] for the public read, which
    has no [requireAdmin] *)
Definition credential (r : request) : option (option string) :=
  match r with
  | GET_api_client _ => None
  | GET_api_clients auth
  | POST_api_clients _ _ auth _
  | PUT_api_clients_id _ auth _ _
  | DELETE_api_clients_id auth _
  | POST_api_clients_grants _ auth _ _
  | PUT_api_grants_id auth _ _
  | DELETE_api_grants_id auth _
  | PUT_api_clients_grants _ auth _ _ => Some auth
  end.

(** * Properties *)

(** ** The handlers on the sample store *)

Example ADMIN_PASS_default :
  ADMIN_PASS (Env Undefined) = "grants2024"
  ∧ ADMIN_PASS (Env (Val "")) = "grants2024"
  ∧ ADMIN_PASS (Env (Val "s3cret")) = "s3cret".
Proof. by split_and!. Qed.

Example store0_rows :
  clients store0
  = [ClientRow.Build "c1" "Acme" (Some "") (Some "Tech") (Some "") (Some "")
       (Some "") (Some DEFAULT_presenter) "2024-01-01 10:00:00"
       "2024-01-01 10:00:00"]
  ∧ grants store0
    = [GrantRow.Build 1 "g1" "c1" (Some "A") (Some "") (Some "") (Some "")
         (Some "") (Some "") (Some "open") (Some 70) (Some "internal") 0;
       GrantRow.Build 2 "g2" "c1" (Some "B") (Some "") (Some "") (Some "")
         (Some "") (Some "") (Some "open") (Some 70) (Some "internal") 0].
Proof. split; reflexivity. Qed.

Example create_grant_unknown_client :
  post_api_clients_grants env0 "g9" key0 "nobody" (grant_named "Q") store0
  = (store0, Throw (SqliteError FOREIGN_KEY)).
Proof. reflexivity. Qed.

Example create_client_without_name :
  post_api_clients env0 "2024-01-02 09:00:00" "c2" key0
    (ClientBody.Build Undefined Undefined Undefined Undefined Undefined
       Undefined Undefined) store0
  = (store0, Throw (SqliteError NOT_NULL)).
Proof. reflexivity. Qed.

Example bulk_replace_without_array :
  (put_api_clients_grants env0 ids0 key0 "c1" (BulkBody.Build Undefined)
     store0)
  = (Db (clients store0) [], Throw TypeError).
Proof. reflexivity. Qed.

Example delete_client_cascades :
  delete_api_clients_id env0 key0 "c1" store0
  = (empty_db, Ok (Response 200 (JObj {[ "ok" := JBool true ]}))).
Proof. reflexivity. Qed.

(** ** [||] implements the policy *)

Lemma js_or_defaults_to {A} `{Truthy A} (v : js A) (d : A) :
  defaults_to d v (v ||| d).
Proof.
  destruct v as [| |a]; simpl; try constructor.
  destruct (truthy a) eqn:Ha; by constructor.
Qed.

Lemma js_or_stored {A} `{Truthy A} (v : js A) (d : A) :
  stored_with_default d v (Some (v ||| d)).
Proof. exists (v ||| d). split; [done | apply js_or_defaults_to]. Qed.

#[local] Hint Resolve js_or_stored : core.

(** ** Sorting *)

Section order_by_facts.
Context {A : Type} (R : relation A) `{!RelDecision R}.

Lemma insert_row_Permutation x l : insert_row R x l ≡ₚ x :: l.
Proof.
  induction l as [|y l IH]; simpl; [done|].
  case_decide; [done|]. by rewrite IH, Permutation_swap.
Qed.

Lemma order_by_Permutation l : order_by R l ≡ₚ l.
Proof.
  induction l as [|x l IH]; simpl; [done|].
  fold (order_by R l). by rewrite insert_row_Permutation, IH.
Qed.

Lemma elem_of_order_by x l : x ∈ order_by R l ↔ x ∈ l.
Proof. by rewrite order_by_Permutation. Qed.

Lemma order_by_nil_inv l : order_by R l = [] → l = [].
Proof.
  intros Hl. apply Permutation_nil_r. by rewrite <- Hl, order_by_Permutation.
Qed.

Lemma insert_row_sorted `{!Total R, !Transitive R} x l :
  StronglySorted R l → StronglySorted R (insert_row R x l).
Proof.
  induction 1 as [|y l Hl IH Hy]; simpl.
  - repeat constructor.
  - case_decide as Hxy.
    + constructor; [by constructor|].
      constructor; [done|]. eapply Forall_impl; [exact Hy|].
      intros z Hz. by etrans.
    + constructor; [done|].
      rewrite insert_row_Permutation. constructor; [|done].
      by destruct (total R x y).
Qed.

Lemma order_by_sorted `{!Total R, !Transitive R} l :
  StronglySorted R (order_by R l).
Proof.
  induction l as [|x l IH]; simpl; [constructor|].
  by apply insert_row_sorted.
Qed.

(** a scan that is already in order comes back as it is *)
Lemma order_by_id l : StronglySorted R l → order_by R l = l.
Proof.
  induction 1 as [|x l Hl IH Hx]; simpl; [done|].
  fold (order_by R l). rewrite IH.
  destruct Hx as [|y l' Hxy _]; simpl; [done|]. by rewrite decide_True.
Qed.

(** in a sorted list, a row that does not come after another one in the
    key order stands before it *)
Lemma sorted_before `{!Total R} x y l :
  StronglySorted R l → x ∈ l → y ∈ l → ¬ R y x → before x y l.
Proof.
  intros Hs Hx Hy Hyx.
  apply list_elem_of_split in Hy as (l1 & l2 & ->).
  apply StronglySorted_app in Hs as (_ & _ & Hs).
  apply StronglySorted_cons in Hs as [Hl2 _].
  rewrite Forall_forall in Hl2.
  apply elem_of_app in Hx as [Hx|Hx].
  - apply list_elem_of_split in Hx as (l3 & l4 & ->).
    exists l3, l4, l2. by rewrite <- app_assoc.
  - destruct Hyx. apply elem_of_cons in Hx as [->|Hx].
    + by destruct (total R y y).
    + by apply Hl2.
Qed.
End order_by_facts.

#[global] Instance by_sort_order_rowid_total : Total by_sort_order_rowid.
Proof. intros g1 g2. unfold by_sort_order_rowid. lia. Qed.

#[global] Instance by_sort_order_rowid_trans : Transitive by_sort_order_rowid.
Proof. intros g1 g2 g3. unfold by_sort_order_rowid. lia. Qed.

(** ** Filters *)

Section filter_facts.
Context {A : Type} (P : A → Prop) `{!∀ x, Decision (P x)}.

Lemma filter_all l : Forall P l → filter P l = l.
Proof.
  induction 1 as [|x l Hx _ IH]; [done|].
  by rewrite filter_cons_True, IH.
Qed.

Lemma filter_none l : Forall (λ x, ¬ P x) l → filter P l = [].
Proof.
  induction 1 as [|x l Hx _ IH]; [done|].
  by rewrite filter_cons_False.
Qed.

Lemma filter_complement_nil l : filter P (filter (λ x, ¬ P x) l) = [].
Proof.
  apply filter_none, Forall_forall. by intros x [? _]%list_elem_of_filter.
Qed.
End filter_facts.

(** ** The queries *)

Lemma select_grants_sorted cid d :
  StronglySorted by_sort_order_rowid (select_grants cid d).
Proof. apply order_by_sorted; apply _. Qed.

Lemma select_grants_Permutation cid d :
  select_grants cid d ≡ₚ filter (λ g, GrantRow.client_id g = cid) (grants d).
Proof. apply order_by_Permutation. Qed.

Lemma elem_of_select_grants g cid d :
  g ∈ select_grants cid d ↔ GrantRow.client_id g = cid ∧ g ∈ grants d.
Proof.
  unfold select_grants. by rewrite elem_of_order_by, list_elem_of_filter.
Qed.

Lemma select_client_Some id d c :
  select_client id d = Some c → ClientRow.id c = id ∧ c ∈ clients d.
Proof.
  unfold select_client. intros Hc. apply head_Some_elem_of in Hc.
  by apply list_elem_of_filter in Hc.
Qed.

Lemma select_client_None id d :
  select_client id d = None ↔ id ∉ ClientRow.id <$> clients d.
Proof.
  unfold select_client. rewrite head_None. split.
  - intros Hnil [c [-> Hc]]%list_elem_of_fmap.
    assert (c ∈ filter (λ c0, ClientRow.id c0 = ClientRow.id c) (clients d))
      as Hin by by apply list_elem_of_filter.
    rewrite Hnil in Hin. by apply not_elem_of_nil in Hin.
  - intros Hid. apply filter_none, Forall_forall. intros c Hc <-. apply Hid.
    apply list_elem_of_fmap. eauto.
Qed.

Lemma select_client_is_Some id d :
  id ∈ ClientRow.id <$> clients d → is_Some (select_client id d).
Proof.
  intros Hid. destruct (select_client id d) eqn:Hc; [by eexists|].
  by apply select_client_None in Hc.
Qed.

(** ** Running a handler *)

(** unfold the monad of a handler applied to a store *)
Ltac run_handler :=
  unfold requireAdmin, mbind, mret, M_bind, M_ret, query, exec, throw in *;
  simpl in *.

Lemma requireAdmin_rejects env auth next d :
  auth ≠ Some (ADMIN_PASS env) →
  requireAdmin env auth next d
  = (d, Ok (Response 401 (JObj {[ "error" := JStr "Unauthorized" ]}))).
Proof. intros Hauth. unfold requireAdmin. by rewrite decide_True. Qed.

Lemma requireAdmin_accepts env next :
  requireAdmin env (Some (ADMIN_PASS env)) next = next.
Proof. unfold requireAdmin. rewrite decide_False; [done|]. by intros []. Qed.

Lemma get_api_client_found id d c :
  select_client id d = Some c →
  get_api_client id d
  = (d, Ok (Response 200 (JObj (<["grants" :=
       JArr ((λ g, JObj (without_notes (grant_obj g))) <$> select_grants id d)]>
       (client_obj c))))).
Proof.
  intros Hc. unfold get_api_client. run_handler. rewrite Hc.
  by apply select_client_Some in Hc as [-> _].
Qed.

Lemma get_api_client_missing id d :
  id ∉ ClientRow.id <$> clients d →
  get_api_client id d
  = (d, Ok (Response 404 (JObj {[ "error" := JStr "Not found" ]}))).
Proof.
  intros Hc%select_client_None. unfold get_api_client. run_handler.
  by rewrite Hc.
Qed.

Lemma get_api_clients_authorized env d :
  get_api_clients env (Some (ADMIN_PASS env)) d
  = (d, Ok (Response 200 (JArr ((λ c, JObj (<["grants" :=
       JArr ((λ g, JObj (grant_obj g)) <$> select_grants (ClientRow.id c) d)]>
       (client_obj c))) <$> select_clients d)))).
Proof. unfold get_api_clients. by rewrite requireAdmin_accepts. Qed.

(** C3. Every protected operation (list clients; create, update, delete
    client; create, update, delete grant; bulk replace) called with an
    [x-admin-key] header that is absent or differs from the configured
    secret answers 401 with body [{error: "Unauthorized"}] and leaves the
    store as it was. *)
Theorem unauthorized_rejected_without_mutation
    (env : process_env) (auth : option string) (d : db) :
  auth ≠ Some (ADMIN_PASS env) →
  let rejected :=
    (d, Ok (Response 401 (JObj {[ "error" := JStr "Unauthorized" ]}))) in
  get_api_clients env auth d = rejected
  ∧ (∀ now rnd body, post_api_clients env now rnd auth body d = rejected)
  ∧ (∀ now id body, put_api_clients_id env now auth id body d = rejected)
  ∧ (∀ id, delete_api_clients_id env auth id d = rejected)
  ∧ (∀ rnd cid body, post_api_clients_grants env rnd auth cid body d = rejected)
  ∧ (∀ id body, put_api_grants_id env auth id body d = rejected)
  ∧ (∀ id, delete_api_grants_id env auth id d = rejected)
  ∧ (∀ rnd cid body, put_api_clients_grants env rnd auth cid body d = rejected).
Proof.
  intros Hauth rejected. subst rejected.
  repeat split; intros; by apply requireAdmin_rejects.
Qed.

Lemma unauthorized_rejected_without_mutation_witness :
  let env := Env (Val "s3cret") in
  let d := Db [ClientRow.Build "c1" "Acme" (Some "") (Some "") (Some "")
                 (Some "") (Some "") (Some "Org") "t0" "t0"] [] in
  Some "grants2024" ≠ Some (ADMIN_PASS env)
  ∧ delete_api_clients_id env (Some "grants2024") "c1" d
    = (d, Ok (Response 401 (JObj {[ "error" := JStr "Unauthorized" ]}))).
Proof.
  intros env d. split; [discriminate|].
  apply (unauthorized_rejected_without_mutation env (Some "grants2024") d).
  discriminate.
Defined.

(** C4. For a client id present in the store, the public read answers with
    the client object and a [grants] array holding, for each grant of the
    client in query order, an object without the [notes] field and with
    every other field as in the row; for an id that is absent it answers
    404 with an error body. *)
Theorem public_read_hides_notes (id : string) (d : db) :
  (id ∈ ClientRow.id <$> clients d →
   ∃ c o gs,
     c ∈ clients d ∧ ClientRow.id c = id
     ∧ get_api_client id d = (d, Ok (Response 200 (JObj o)))
     ∧ (∀ k, k ≠ "grants" → o !! k = client_obj c !! k)
     ∧ o !! "grants" = Some (JArr gs)
     ∧ Forall2 (λ out g, ∃ og,
                  out = JObj og
                  ∧ og !! "notes" = None
                  ∧ ∀ k, k ≠ "notes" → og !! k = grant_obj g !! k)
         gs (select_grants id d))
  ∧ (id ∉ ClientRow.id <$> clients d →
     get_api_client id d
     = (d, Ok (Response 404 (JObj {[ "error" := JStr "Not found" ]})))).
Proof.
  split; [|apply get_api_client_missing].
  intros [c Hc]%select_client_is_Some.
  destruct (select_client_Some _ _ _ Hc) as [Hid Hin].
  eexists c, _, _. split_and!; [done|done|by apply get_api_client_found|..].
  - intros k Hk. by rewrite lookup_insert_ne.
  - by rewrite lookup_insert_eq.
  - apply Forall2_fmap_l, Forall_Forall2_diag, Forall_forall.
    intros g _. eexists. split; [done|]. unfold without_notes. split.
    + apply lookup_delete_eq.
    + intros k Hk. by rewrite lookup_delete_ne.
Qed.

Lemma public_read_hides_notes_witness :
  let d := Db [ClientRow.Build "c1" "Acme" (Some "") (Some "") (Some "")
                 (Some "") (Some "") (Some "Org") "t0" "t0"]
              [GrantRow.Build 1 "g1" "c1" (Some "A") (Some "") (Some "")
                 (Some "") (Some "") (Some "") (Some "open") (Some 70)
                 (Some "internal") 0] in
  ("c1" ∈ ClientRow.id <$> clients d)
  ∧ ("zz" ∉ ClientRow.id <$> clients d)
  ∧ (∃ c o gs, c ∈ clients d ∧ ClientRow.id c = "c1"
       ∧ get_api_client "c1" d = (d, Ok (Response 200 (JObj o)))
       ∧ (∀ k, k ≠ "grants" → o !! k = client_obj c !! k)
       ∧ o !! "grants" = Some (JArr gs)
       ∧ Forall2 (λ out g, ∃ og,
                    out = JObj og
                    ∧ og !! "notes" = None
                    ∧ ∀ k, k ≠ "notes" → og !! k = grant_obj g !! k)
           gs (select_grants "c1" d))
  ∧ get_api_client "zz" d
    = (d, Ok (Response 404 (JObj {[ "error" := JStr "Not found" ]}))).
Proof.
  intros d.
  assert ("c1" ∈ ClientRow.id <$> clients d) as H1
    by (apply (bool_decide_unpack _); reflexivity).
  assert ("zz" ∉ ClientRow.id <$> clients d) as H2
    by (apply (bool_decide_unpack _); reflexivity).
  split_and!; [done|done|..].
  - exact (proj1 (public_read_hides_notes "c1" d) H1).
  - exact (proj2 (public_read_hides_notes "zz" d) H2).
Defined.

(** ** Store invariants along a handler *)

Section preserves.
Context (P : db → Prop).

Lemma preserves_ret {A} (a : A) : preserves P (mret a).
Proof. by intros d. Qed.

Lemma preserves_throw {A} (e : exn) : preserves P (throw e : M A).
Proof. by intros d. Qed.

Lemma preserves_query {A} (q : db → A) : preserves P (query q).
Proof. by intros d. Qed.

Lemma preserves_bind {A B} (m : M A) (k : A → M B) :
  preserves P m → (∀ a, preserves P (k a)) → preserves P (m ≫= k).
Proof.
  intros Hm Hk d Hd. specialize (Hm d Hd). unfold mbind, M_bind.
  destruct (m d) as [d' [a|e]]; simpl in *; [by apply Hk|done].
Qed.

Lemma preserves_requireAdmin env auth next :
  preserves P next → preserves P (requireAdmin env auth next).
Proof.
  intros Hn. unfold requireAdmin. case_decide; [apply preserves_ret|done].
Qed.

Lemma preserves_forEach_from {A} (f : A → nat → M unit) l i :
  (∀ x j, preserves P (f x j)) → preserves P (forEach_from i l f).
Proof.
  intros Hf. revert i. induction l as [|x l IH]; intros i; simpl.
  - apply preserves_ret.
  - apply preserves_bind; [apply Hf|]. intros _. apply IH.
Qed.

Lemma preserves_forEach {A} (f : A → nat → M unit) l :
  (∀ x j, preserves P (f x j)) → preserves P (forEach l f).
Proof.
  intros Hf. destruct l; simpl; try apply preserves_throw.
  by apply preserves_forEach_from.
Qed.

Lemma preserves_properties g : preserves P (properties g).
Proof. destruct g; simpl; [apply preserves_throw..|apply preserves_ret]. Qed.
End preserves.

#[local] Hint Resolve preserves_ret preserves_throw preserves_query
  preserves_properties : core.

(** ** Every statement keeps the foreign key *)

Lemma insert_client_references now id name c1 c2 c3 c4 c5 c6 :
  preserves references_ok (insert_client now id name c1 c2 c3 c4 c5 c6).
Proof.
  intros d Hd. unfold insert_client.
  destruct name; [|done]. case_decide; [done|].
  intros g Hg. cbn [fst clients grants] in *.
  rewrite fmap_app. apply elem_of_app. left. by apply Hd.
Qed.

Lemma update_client_ids now name c1 c2 c3 c4 c5 c6 id d :
  ClientRow.id <$> clients (update_client now name c1 c2 c3 c4 c5 c6 id d).1
  = ClientRow.id <$> clients d.
Proof.
  unfold update_client. case_decide; [|done]. destruct name; [|done]. simpl.
  rewrite <- list_fmap_compose. apply list_fmap_ext. intros _ c _. simpl.
  by case_decide.
Qed.

Lemma update_client_grants now name c1 c2 c3 c4 c5 c6 id d :
  grants (update_client now name c1 c2 c3 c4 c5 c6 id d).1 = grants d.
Proof.
  unfold update_client. case_decide; [|done]. by destruct name.
Qed.

Lemma update_client_references now name c1 c2 c3 c4 c5 c6 id :
  preserves references_ok (update_client now name c1 c2 c3 c4 c5 c6 id).
Proof.
  intros d Hd g. rewrite update_client_ids, update_client_grants. apply Hd.
Qed.

Lemma delete_client_references id :
  preserves references_ok (delete_client id).
Proof.
  intros d Hd g. unfold delete_client, exec. simpl.
  case_decide as Hid.
  - intros [Hne Hg]%list_elem_of_filter.
    apply Hd, list_elem_of_fmap in Hg as (c & Hc & Hin).
    apply list_elem_of_fmap. exists c. split; [done|].
    apply list_elem_of_filter. split; [congruence|done].
  - intros Hg. apply Hd, list_elem_of_fmap in Hg as (c & Hc & Hin).
    apply list_elem_of_fmap. exists c. split; [done|].
    apply list_elem_of_filter. split; [|done].
    intros Heq. apply Hid, list_elem_of_fmap. eauto.
Qed.

Lemma insert_grant_references id cid f1 f2 f3 f4 f5 f6 f7 f8 f9 so :
  preserves references_ok (insert_grant id cid f1 f2 f3 f4 f5 f6 f7 f8 f9 so).
Proof.
  intros d Hd. unfold insert_grant. repeat case_decide; try done.
  intros g. cbn [fst clients grants].
  intros [Hg|Hg]%elem_of_app; [by apply Hd|].
  by apply list_elem_of_singleton in Hg as ->.
Qed.

Lemma update_grant_references f1 f2 f3 f4 f5 f6 f7 f8 f9 id :
  preserves references_ok (update_grant f1 f2 f3 f4 f5 f6 f7 f8 f9 id).
Proof.
  intros d Hd g. unfold update_grant, exec. cbn [fst clients grants].
  intros (g0 & -> & Hg0)%list_elem_of_fmap.
  case_decide; cbn [GrantRow.client_id]; by apply Hd.
Qed.

Lemma delete_grant_references id : preserves references_ok (delete_grant id).
Proof.
  intros d Hd g. unfold delete_grant, exec. cbn [fst clients grants].
  intros [_ Hg]%list_elem_of_filter. by apply Hd.
Qed.

Lemma delete_grants_of_references cid :
  preserves references_ok (delete_grants_of cid).
Proof.
  intros d Hd g. unfold delete_grants_of, exec. cbn [fst clients grants].
  intros [_ Hg]%list_elem_of_filter. by apply Hd.
Qed.

#[local] Hint Resolve insert_client_references update_client_references
  delete_client_references insert_grant_references update_grant_references
  delete_grant_references delete_grants_of_references : core.

Lemma handle_references env r : preserves references_ok (handle env r).
Proof.
  destruct r; simpl;
    unfold get_api_clients, get_api_client, post_api_clients,
      put_api_clients_id, delete_api_clients_id, post_api_clients_grants,
      put_api_grants_id, delete_api_grants_id, put_api_clients_grants,
      insert_grant_default_order;
    try apply preserves_requireAdmin;
    repeat (apply preserves_bind; [|intros ?]);
    try apply preserves_forEach; intros;
    repeat (apply preserves_bind; [|intros ?]); auto.
  destruct a; [|auto].
  apply preserves_bind; [|intros ?]; auto.
Qed.

Lemma reachable_references env d : reachable env d → references_ok d.
Proof.
  induction 1 as [|d r _ IH]; [by intros g Hg%not_elem_of_nil|].
  by apply handle_references.
Qed.

Lemma client_obj_id c : client_obj c !! "id" = Some (JStr (ClientRow.id c)).
Proof. reflexivity. Qed.

Lemma grant_obj_client_id g :
  grant_obj g !! "client_id" = Some (JStr (GrantRow.client_id g)).
Proof. reflexivity. Qed.

Lemma delete_client_gone id d :
  references_ok d →
  let d' := (delete_client id d).1 in
  (id ∉ ClientRow.id <$> clients d')
  ∧ ∀ g, g ∈ grants d' → GrantRow.client_id g ≠ id.
Proof.
  intros Hd d'. subst d'. unfold delete_client, exec.
  cbn [fst clients grants]. split.
  - intros (c & -> & [Hne _]%list_elem_of_filter)%list_elem_of_fmap. done.
  - intros g. case_decide as Hid.
    + by intros [Hne _]%list_elem_of_filter.
    + intros Hg%Hd Heq. by rewrite Heq in Hg.
Qed.

(** C2. In every reachable store each grant's [client_id] names a client
    of the store, and it still does after any further request; an
    authorized delete of a client answers [{ok: true}] and leaves no client
    and no grant with that id: the grants query for the id is empty, the
    public read answers 404, and the list of clients has no entry and no
    nested grant with the id. *)
Theorem grants_reference_existing_clients (env : process_env) (d : db) :
  reachable env d →
  (∀ g, g ∈ grants d → GrantRow.client_id g ∈ ClientRow.id <$> clients d)
  ∧ (∀ r g, g ∈ grants (handle env r d).1 →
       GrantRow.client_id g ∈ ClientRow.id <$> clients (handle env r d).1)
  ∧ (∀ id, ∃ d',
       delete_api_clients_id env (Some (ADMIN_PASS env)) id d
       = (d', Ok (Response 200 (JObj {[ "ok" := JBool true ]})))
       ∧ (id ∉ ClientRow.id <$> clients d')
       ∧ (∀ g, g ∈ grants d' → GrantRow.client_id g ≠ id)
       ∧ select_grants id d' = []
       ∧ get_api_client id d'
         = (d', Ok (Response 404 (JObj {[ "error" := JStr "Not found" ]})))
       ∧ ∃ l,
           get_api_clients env (Some (ADMIN_PASS env)) d'
           = (d', Ok (Response 200 (JArr l)))
           ∧ ∀ o, JObj o ∈ l →
               o !! "id" ≠ Some (JStr id)
               ∧ ∀ gs og, o !! "grants" = Some (JArr gs) → JObj og ∈ gs →
                   og !! "client_id" ≠ Some (JStr id)).
Proof.
  intros Hreach. pose proof (reachable_references _ _ Hreach) as Hd.
  split; [exact Hd|]. split.
  { intros r. by apply (reachable_references env), reachable_step. }
  intros id. exists (delete_client id d).1.
  destruct (delete_client_gone id d Hd) as [Hc Hg].
  split_and!; [|done|done|..].
  - unfold delete_api_clients_id. by rewrite requireAdmin_accepts.
  - unfold select_grants. rewrite filter_none; [done|].
    apply Forall_forall. intros g Hin. by apply Hg.
  - by apply get_api_client_missing.
  - eexists. split; [apply get_api_clients_authorized|].
    intros o (c & [= ->] & Hin)%list_elem_of_fmap.
    apply elem_of_order_by in Hin. split.
    + rewrite lookup_insert_ne, client_obj_id by done. intros [= <-].
      apply Hc, list_elem_of_fmap. eauto.
    + intros gs og. rewrite lookup_insert_eq. intros [= <-].
      intros (g & [= ->] & Hgin)%list_elem_of_fmap.
      apply elem_of_select_grants in Hgin as [_ Hgin].
      rewrite grant_obj_client_id. intros [= Heq]. by apply (Hg g).
Qed.

(** ** The bulk replace, statement by statement *)

Lemma put_api_clients_grants_authorized env rnd cid body :
  put_api_clients_grants env rnd (Some (ADMIN_PASS env)) cid body
  = (delete_grants_of cid;;
     forEach (BulkBody.grants body) (bulk_callback rnd cid);;
     mret (res_json ok_true)).
Proof. unfold put_api_clients_grants. by rewrite requireAdmin_accepts. Qed.

Lemma insert_grant_inv id cid f1 f2 f3 f4 f5 f6 f7 f8 f9 so d d' r :
  insert_grant id cid f1 f2 f3 f4 f5 f6 f7 f8 f9 so d = (d', r) →
  (d' = d ∧ ∃ e, r = Throw e)
  ∨ (r = Ok tt
     ∧ (id ∉ GrantRow.id <$> grants d)
     ∧ (cid ∈ ClientRow.id <$> clients d)
     ∧ d' = Db (clients d)
              (grants d ++
                 [GrantRow.Build (next_rowid (grants d)) id cid f1 f2 f3 f4
                    f5 f6 f7 f8 f9 so])).
Proof.
  unfold insert_grant. repeat case_decide; intros [= <- <-]; eauto 10.
Qed.

Lemma insert_grant_fresh id cid f1 f2 f3 f4 f5 f6 f7 f8 f9 so d :
  id ∉ GrantRow.id <$> grants d →
  cid ∈ ClientRow.id <$> clients d →
  insert_grant id cid f1 f2 f3 f4 f5 f6 f7 f8 f9 so d
  = (Db (clients d)
        (grants d ++
           [GrantRow.Build (next_rowid (grants d)) id cid f1 f2 f3 f4
              f5 f6 f7 f8 f9 so]),
     Ok tt).
Proof. intros Hid Hcid. unfold insert_grant. by rewrite decide_False, decide_True. Qed.

(** The loop appends, in order, one row per submitted grant until it is
    done or a step throws; it touches nothing else. *)
Lemma forEach_from_bulk rnd cid l i d d' r :
  forEach_from i l (bulk_callback rnd cid) d = (d', r) →
  clients d' = clients d
  ∧ ∃ rows,
      grants d' = grants d ++ rows
      ∧ match r with
        | Ok _ => length rows = length l
        | Throw _ => (length rows < length l)%nat
        end
      ∧ ∀ j row, rows !! j = Some row →
          ∃ g, l !! j = Some (Val g) ∧ bulk_row rnd cid (i + j) g row.
Proof.
  revert i d. induction l as [|x l IH]; intros i d; simpl.
  - intros [= <- <-]. split; [done|]. exists []. rewrite app_nil_r.
    split_and!; [done..|]. by intros j row Hj.
  - unfold mbind at 1, M_bind at 1.
    destruct (bulk_callback rnd cid x i d) as [d1 [[]|e]] eqn:Hcb.
    + unfold bulk_callback in Hcb. destruct x as [| |g]; try done.
      simpl in Hcb. unfold mbind, M_bind, mret, M_ret in Hcb. simpl in Hcb.
      apply insert_grant_inv in Hcb as [[_ [e [=]]]|(_ & _ & _ & ->)].
      intros (Hc & rows & Hg & Hlen & Hrows)%IH. simpl in *.
      split; [done|]. eexists (_ :: rows). split_and!.
      * rewrite Hg, <- app_assoc. done.
      * destruct r; simpl; lia.
      * intros [|j] row Hj; simpl in *.
        -- injection Hj as <-. exists g. split; [done|].
           rewrite Nat.add_0_r. unfold bulk_row, grant_fields_stored.
           simpl. split_and!; auto.
        -- destruct (Hrows j row Hj) as (g' & Hl & Hrow).
           exists g'. split; [done|]. by rewrite Nat.add_succ_r.
    + intros [= <- <-].
      assert (d1 = d) as ->.
      { unfold bulk_callback in Hcb. destruct x as [| |g];
          try (by injection Hcb as ->). simpl in Hcb.
        unfold mbind, M_bind, mret, M_ret in Hcb. simpl in Hcb.
        by apply insert_grant_inv in Hcb as [[-> _]|([=] & _)]. }
      split; [done|]. exists []. rewrite app_nil_r.
      split_and!; [done|simpl; lia|]. by intros j row Hj.
Qed.


(** With an existing client and fresh identifiers the loop runs to its
    end. *)
Lemma forEach_from_bulk_succeeds rnd cid (gs : list GrantBody.t) i d :
  cid ∈ ClientRow.id <$> clients d →
  NoDup (rnd <$> seq i (length gs)) →
  (∀ j, (i ≤ j < i + length gs)%nat → rnd j ∉ GrantRow.id <$> grants d) →
  ∃ d', forEach_from i (Val <$> gs) (bulk_callback rnd cid) d = (d', Ok tt).
Proof.
  revert i d. induction gs as [|g gs IH]; intros i d Hcid Hnd Hfresh;
    simpl in *.
  - by eexists.
  - unfold mbind at 1, M_bind at 1. unfold bulk_callback at 1. simpl.
    unfold mbind at 1, M_bind at 1, mret at 1, M_ret at 1.
    rewrite insert_grant_fresh; [|apply Hfresh; lia|done].
    apply NoDup_cons in Hnd as [Hi Hnd].
    apply IH; [done|done|]. cbn [grants]. intros j Hj.
    rewrite fmap_app. intros [Hin|Hin]%elem_of_app.
    + by apply (Hfresh j); [lia|].
    + apply list_elem_of_singleton in Hin. simpl in Hin.
      apply Hi. rewrite <- Hin. apply list_elem_of_fmap. exists j.
      split; [done|]. apply elem_of_seq. lia.
Qed.

(** Rows numbered in sequence by [sort_order] are in query order. *)
Lemma sort_order_sequence_sorted (rows : list GrantRow.t) i :
  (∀ j row, rows !! j = Some row →
     GrantRow.sort_order row = Z.of_nat (i + j)) →
  StronglySorted by_sort_order_rowid rows.
Proof.
  revert i. induction rows as [|r rows IH]; intros i Hrows; constructor.
  - apply (IH (S i)). intros j row Hj.
    rewrite (Hrows (S j) row Hj). f_equal. lia.
  - apply Forall_forall. intros row [j Hj]%list_elem_of_lookup.
    left. rewrite (Hrows 0%nat r eq_refl), (Hrows (S j) row Hj). lia.
Qed.

(** After the DELETE, the rows the loop appended are the grants of the
    client, in the order the query returns them. *)
Lemma select_grants_appended cid (d d' : db) rows i :
  grants d' = filter (λ g, GrantRow.client_id g ≠ cid) (grants d) ++ rows →
  (∀ j row, rows !! j = Some row →
     GrantRow.client_id row = cid
     ∧ GrantRow.sort_order row = Z.of_nat (i + j)) →
  select_grants cid d' = rows.
Proof.
  intros Hg Hrows. unfold select_grants.
  rewrite Hg, filter_app, filter_complement_nil. simpl.
  rewrite filter_all.
  - apply order_by_id, (sort_order_sequence_sorted _ i).
    intros j row Hj. by apply Hrows.
  - apply Forall_forall. intros row [j Hj]%list_elem_of_lookup.
    by apply (Hrows j).
Qed.

(** What an authorized bulk replace does to the store, whatever its
    outcome. *)
Lemma put_api_clients_grants_effect env rnd cid body d d' r :
  put_api_clients_grants env rnd (Some (ADMIN_PASS env)) cid body d = (d', r) →
  clients d' = clients d
  ∧ ∃ rows,
      grants d' = filter (λ g, GrantRow.client_id g ≠ cid) (grants d) ++ rows
      ∧ select_grants cid d' = rows
      ∧ match BulkBody.grants body, r with
        | Val l, Ok _ => length rows = length l
        | Val l, Throw _ => (length rows < length l)%nat
        | _, Ok _ => False
        | _, Throw _ => rows = []
        end
      ∧ ∀ j row, rows !! j = Some row →
          ∃ l g, BulkBody.grants body = Val l ∧ l !! j = Some (Val g)
                 ∧ bulk_row rnd cid j g row.
Proof.
  rewrite put_api_clients_grants_authorized.
  unfold mbind at 1, M_bind at 1, delete_grants_of at 1, exec at 1.
  unfold mbind at 1, M_bind at 1.
  set (d0 := Db _ _).
  destruct (forEach (BulkBody.grants body) (bulk_callback rnd cid) d0)
    as [d1 r1] eqn:Hloop.
  intros Hr.
  assert (d' = d1 ∧ match r1, r with
                    | Ok _, Ok _ | Throw _, Throw _ => True
                    | _, _ => False
                    end) as [-> Hrr].
  { destruct r1; injection Hr as <- <-; done. }
  clear Hr.
  assert (clients d1 = clients d
          ∧ ∃ rows,
              grants d1 = grants d0 ++ rows
              ∧ match BulkBody.grants body, r1 with
                | Val l, Ok _ => length rows = length l
                | Val l, Throw _ => (length rows < length l)%nat
                | _, Ok _ => False
                | _, Throw _ => rows = []
                end
              ∧ ∀ j row, rows !! j = Some row →
                  ∃ l g, BulkBody.grants body = Val l ∧ l !! j = Some (Val g)
                         ∧ bulk_row rnd cid j g row)
    as (Hc & rows & Hg & Hlen & Hrows).
  { destruct body as [[| |l]]; simpl in *.
    1,2: injection Hloop as <- <-; split; [done|]; exists [];
         rewrite app_nil_r; split_and!; [done..|]; by intros j row Hj.
    apply forEach_from_bulk in Hloop as (Hc & rows & Hg & Hlen & Hrows).
    split; [done|]. exists rows. split_and!; [done..|].
    intros j row Hj. destruct (Hrows j row Hj) as (g & Hl & Hrow). eauto. }
  split; [done|]. exists rows. split_and!; [done| | |done].
  - apply (select_grants_appended cid d d1 rows 0); [done|].
    intros j row Hj.
    destruct (Hrows j row Hj) as (l & g & _ & _ & _ & ? & ? & _). done.
  - destruct (BulkBody.grants body), r1, r; done.
Qed.

Lemma store0_reachable : reachable env0 store0.
Proof. unfold store0, run. cbn [foldl]. repeat constructor. Qed.

(** C5. An authorized bulk replace for an existing client with a list of
    grant objects and freshly drawn identifiers answers [{ok: true}]; the
    grants of the client are then exactly one row per submitted grant, in
    submitted order, the [i]-th with the [i]-th drawn identifier,
    [sort_order = i] and the submitted fields under the default policy;
    no grant the client had before remains; the public read and the list
    of clients return these rows. *)
Theorem bulk_replace_then_fetch (env : process_env) (rnd : nat → string)
    (cid : string) (gs : list GrantBody.t) (d : db) :
  cid ∈ ClientRow.id <$> clients d →
  NoDup (rnd <$> seq 0 (length gs)) →
  (∀ i, (i < length gs)%nat → rnd i ∉ GrantRow.id <$> grants d) →
  ∃ d' rows,
    put_api_clients_grants env rnd (Some (ADMIN_PASS env)) cid
      (BulkBody.Build (Val (Val <$> gs))) d
    = (d', Ok (Response 200 (JObj {[ "ok" := JBool true ]})))
    ∧ select_grants cid d' = rows
    ∧ length rows = length gs
    ∧ (∀ i g, gs !! i = Some g →
         ∃ row, rows !! i = Some row
                ∧ GrantRow.id row = rnd i
                ∧ GrantRow.client_id row = cid
                ∧ GrantRow.sort_order row = Z.of_nat i
                ∧ grant_fields_stored g row)
    ∧ (∀ old, old ∈ grants d → GrantRow.client_id old = cid →
         old ∉ grants d')
    ∧ (∃ c, c ∈ clients d ∧ ClientRow.id c = cid
            ∧ get_api_client cid d'
              = (d', Ok (Response 200 (JObj (<["grants" :=
                   JArr ((λ g, JObj (without_notes (grant_obj g))) <$> rows)]>
                   (client_obj c))))))
    ∧ (∃ l, get_api_clients env (Some (ADMIN_PASS env)) d'
            = (d', Ok (Response 200 (JArr l)))
            ∧ ∀ o, JObj o ∈ l → o !! "id" = Some (JStr cid) →
                o !! "grants"
                = Some (JArr ((λ g, JObj (grant_obj g)) <$> rows))).
Proof.
  intros Hcid Hnd Hfresh.
  set (body := BulkBody.Build (Val (Val <$> gs))).
  set (d0 := Db (clients d)
                (filter (λ g, GrantRow.client_id g ≠ cid) (grants d))).
  destruct (forEach_from_bulk_succeeds rnd cid gs 0 d0) as [d' Hloop];
    [done|done|..].
  { intros j Hj (g & Hg & [_ Hin]%list_elem_of_filter)%list_elem_of_fmap.
    apply (Hfresh j); [lia|]. apply list_elem_of_fmap. eauto. }
  assert (put_api_clients_grants env rnd (Some (ADMIN_PASS env)) cid body d
          = (d', Ok (Response 200 (JObj {[ "ok" := JBool true ]})))) as Hput.
  { rewrite put_api_clients_grants_authorized.
    unfold mbind at 1, M_bind at 1, delete_grants_of at 1, exec at 1.
    unfold mbind at 1, M_bind at 1. fold d0.
    change (forEach (BulkBody.grants body) (bulk_callback rnd cid) d0)
      with (forEach_from 0 (Val <$> gs) (bulk_callback rnd cid) d0).
    by rewrite Hloop. }
  destruct (put_api_clients_grants_effect _ _ _ _ _ _ _ Hput)
    as (Hc & rows & Hg & Hsel & Hlen & Hrows).
  simpl in Hlen. rewrite length_fmap in Hlen.
  exists d', rows. split_and!; [done..| | | |].
  - intros i g Hi.
    destruct (lookup_lt_is_Some_2 rows i) as [row Hrow].
    { rewrite Hlen. by eapply lookup_lt_Some. }
    exists row. split; [done|].
    destruct (Hrows i row Hrow) as (l & g' & [= <-] & Hl & Hb).
    rewrite list_lookup_fmap, Hi in Hl. injection Hl as <-.
    by destruct Hb as (? & ? & ? & ?).
  - intros old Hold Hcold. rewrite Hg.
    intros [[Hne _]%list_elem_of_filter|[j Hj]%list_elem_of_lookup]%elem_of_app;
      [done|].
    destruct (Hrows j old Hj) as (_ & _ & _ & _ & Hid & _).
    apply (Hfresh j).
    + rewrite <- Hlen. by eapply lookup_lt_Some.
    + rewrite <- Hid. apply list_elem_of_fmap. eauto.
  - destruct (select_client_is_Some cid d') as [c Hsc]; [by rewrite Hc|].
    destruct (select_client_Some _ _ _ Hsc) as [Hid Hin].
    exists c. rewrite <- Hc. split_and!; [done..|].
    rewrite <- Hsel. by apply get_api_client_found.
  - eexists. split; [apply get_api_clients_authorized|].
    intros o (c & [= ->] & Hin)%list_elem_of_fmap.
    rewrite lookup_insert_ne, client_obj_id by done. intros [= ->].
    by rewrite lookup_insert_eq, Hsel.
Qed.

Lemma bulk_replace_then_fetch_witness :
  let gs := [grant_named "X"; grant_named "Y"; grant_named "Z"] in
  ("c1" ∈ ClientRow.id <$> clients store0)
  ∧ NoDup (ids0 <$> seq 0 (length gs))
  ∧ (∀ i, (i < length gs)%nat → ids0 i ∉ GrantRow.id <$> grants store0)
  ∧ ∃ d' rows,
      put_api_clients_grants env0 ids0 key0 "c1"
        (BulkBody.Build (Val (Val <$> gs))) store0
      = (d', Ok (Response 200 (JObj {[ "ok" := JBool true ]})))
      ∧ select_grants "c1" d' = rows
      ∧ GrantRow.id <$> rows = ["n0"; "n1"; "n2"]
      ∧ GrantRow.sort_order <$> rows = [0; 1; 2].
Proof.
  intros gs.
  assert ("c1" ∈ ClientRow.id <$> clients store0) as H1
    by (apply (bool_decide_unpack _); reflexivity).
  assert (NoDup (ids0 <$> seq 0 (length gs))) as H2
    by (apply (bool_decide_unpack _); reflexivity).
  assert (∀ i, (i < length gs)%nat → ids0 i ∉ GrantRow.id <$> grants store0)
    as H3.
  { intros i Hi. simpl in Hi.
    destruct i as [|[|[|i]]]; [..|lia];
      apply (bool_decide_unpack _); reflexivity. }
  split_and!; [done..|].
  destruct (bulk_replace_then_fetch env0 ids0 "c1" gs store0 H1 H2 H3)
    as (d' & rows & Hput & Hsel & _).
  exists d', rows. split_and!; [done..| |].
  - vm_compute in Hput. injection Hput as <-. by rewrite <- Hsel.
  - vm_compute in Hput. injection Hput as <-. by rewrite <- Hsel.
Defined.


(** ** Where a bulk replace stops *)







(** C10. A bulk replace for a client, whatever its outcome, leaves the
    clients table and every grant row of the other clients as they were,
    in the same order; an authorized bulk replace with an empty list
    answers [{ok: true}] and leaves the client with no grants and the rest
    of the grants table untouched. *)
Theorem bulk_replace_frame (env : process_env) (rnd : nat → string)
    (auth : option string) (cid : string) (body : BulkBody.t) (d : db) :
  let d' := (put_api_clients_grants env rnd auth cid body d).1 in
  clients d' = clients d
  ∧ filter (λ g, GrantRow.client_id g ≠ cid) (grants d')
    = filter (λ g, GrantRow.client_id g ≠ cid) (grants d)
  ∧ (auth = Some (ADMIN_PASS env) → BulkBody.grants body = Val [] →
     put_api_clients_grants env rnd auth cid body d
     = (d', Ok (Response 200 (JObj {[ "ok" := JBool true ]})))
     ∧ select_grants cid d' = []
     ∧ grants d' = filter (λ g, GrantRow.client_id g ≠ cid) (grants d)).
Proof.
  intros d'. subst d'.
  destruct (decide (auth = Some (ADMIN_PASS env))) as [->|Hauth].
  - destruct (put_api_clients_grants env rnd (Some (ADMIN_PASS env)) cid
                body d) as [d' r] eqn:Hput.
    destruct (put_api_clients_grants_effect _ _ _ _ _ _ _ Hput)
      as (Hc & rows & Hg & Hsel & Hlen & Hrows).
    cbn [fst]. split_and!; [done| |].
    + rewrite Hg, filter_app, (filter_none _ rows), app_nil_r.
      * apply filter_all, Forall_forall.
        by intros g [? _]%list_elem_of_filter.
      * apply Forall_forall. intros row [j Hj]%list_elem_of_lookup.
        destruct (Hrows j row Hj) as (_ & _ & _ & _ & _ & Hcid & _).
        by intros [].
    + intros _ Hempty. rewrite Hempty in Hlen.
      destruct r as [resp|e]; simpl in Hlen; [|lia].
      apply nil_length_inv in Hlen as ->. rewrite app_nil_r in Hg.
      split_and!; [|done..].
      rewrite put_api_clients_grants_authorized in Hput.
      destruct body as [gs]. simpl in Hempty. subst gs.
      by injection Hput as <- <-.
  - unfold put_api_clients_grants. rewrite requireAdmin_rejects by done.
    by split_and!.
Qed.

Lemma bulk_replace_frame_witness :
  let body := BulkBody.Build (Val []) in
  let d' := (put_api_clients_grants env0 ids0 key0 "c1" body store0).1 in
  key0 = Some (ADMIN_PASS env0)
  ∧ BulkBody.grants body = Val []
  ∧ put_api_clients_grants env0 ids0 key0 "c1" body store0
    = (d', Ok (Response 200 (JObj {[ "ok" := JBool true ]})))
  ∧ select_grants "c1" d' = []
  ∧ grants d' = filter (λ g, GrantRow.client_id g ≠ "c1") (grants store0).
Proof.
  intros body d'. split; [reflexivity|]. split; [reflexivity|].
  exact (proj2 (proj2 (bulk_replace_frame env0 ids0 key0 "c1" body store0))
           eq_refl eq_refl).
Defined.

(** ** Creating one grant *)

Lemma next_rowid_gt g l : g ∈ l → GrantRow.rowid g < next_rowid l.
Proof.
  unfold next_rowid. induction 1 as [g l|g g' l _ IH]; simpl in *; lia.
Qed.

Lemma post_api_clients_grants_inv env rnd cid body d d' resp :
  post_api_clients_grants env rnd (Some (ADMIN_PASS env)) cid body d
  = (d', Ok resp) →
  resp = Response 200 (JObj {[ "id" := JStr rnd ]})
  ∧ (rnd ∉ GrantRow.id <$> grants d)
  ∧ (cid ∈ ClientRow.id <$> clients d)
  ∧ ∃ row,
      d' = Db (clients d) (grants d ++ [row])
      ∧ GrantRow.rowid row = next_rowid (grants d)
      ∧ GrantRow.id row = rnd
      ∧ GrantRow.client_id row = cid
      ∧ GrantRow.sort_order row = 0
      ∧ grant_fields_stored body row.
Proof.
  unfold post_api_clients_grants. rewrite requireAdmin_accepts.
  unfold insert_grant_default_order, mbind, M_bind.
  destruct (insert_grant _ _ _ _ _ _ _ _ _ _ _ _ d) as [d1 r1] eqn:Hins.
  apply insert_grant_inv in Hins as [[_ [e ->]]|(-> & Hid & Hcid & ->)];
    [done|].
  intros [= <- <-]. split_and!; [done..|].
  eexists. split; [done|]. unfold grant_fields_stored. simpl.
  split_and!; auto.
Qed.

Lemma post_api_clients_grants_fresh env rnd cid body d :
  rnd ∉ GrantRow.id <$> grants d →
  cid ∈ ClientRow.id <$> clients d →
  ∃ d', post_api_clients_grants env rnd (Some (ADMIN_PASS env)) cid body d
        = (d', Ok (Response 200 (JObj {[ "id" := JStr rnd ]}))).
Proof.
  intros Hid Hcid. unfold post_api_clients_grants.
  rewrite requireAdmin_accepts.
  unfold insert_grant_default_order, mbind, M_bind.
  rewrite insert_grant_fresh by done. by eexists.
Qed.

(** C6. The grants query behind both read paths returns the grants of the
    client sorted by [sort_order], then [rowid]; the list of clients and
    the public read return their [grants] arrays in the order of that
    query; a new row gets a [rowid] above every row of the table, so
    [rowid] order is insertion order; and two grants created one after the
    other for the same client both have [sort_order] 0 and are read back
    first-created first. *)
Theorem grants_read_in_sort_order (env : process_env) (d : db) :
  (∀ cid,
     StronglySorted by_sort_order_rowid (select_grants cid d)
     ∧ select_grants cid d
       ≡ₚ filter (λ g, GrantRow.client_id g = cid) (grants d))
  ∧ get_api_clients env (Some (ADMIN_PASS env)) d
    = (d, Ok (Response 200 (JArr ((λ c, JObj (<["grants" :=
         JArr ((λ g, JObj (grant_obj g)) <$>
               select_grants (ClientRow.id c) d)]>
         (client_obj c))) <$> select_clients d))))
  ∧ (∀ id c, select_client id d = Some c →
       get_api_client id d
       = (d, Ok (Response 200 (JObj (<["grants" :=
            JArr ((λ g, JObj (without_notes (grant_obj g))) <$>
                  select_grants id d)]>
            (client_obj c))))))
  ∧ (∀ id cid f1 f2 f3 f4 f5 f6 f7 f8 f9 so d',
       insert_grant id cid f1 f2 f3 f4 f5 f6 f7 f8 f9 so d = (d', Ok tt) →
       ∃ row, grants d' = grants d ++ [row]
              ∧ ∀ g, g ∈ grants d → GrantRow.rowid g < GrantRow.rowid row)
  ∧ (∀ id1 id2 cid body1 body2 d1 d2 resp1 resp2,
       post_api_clients_grants env id1 (Some (ADMIN_PASS env)) cid body1 d
       = (d1, Ok resp1) →
       post_api_clients_grants env id2 (Some (ADMIN_PASS env)) cid body2 d1
       = (d2, Ok resp2) →
       ∃ g1 g2,
         GrantRow.id g1 = id1 ∧ GrantRow.id g2 = id2
         ∧ GrantRow.sort_order g1 = 0 ∧ GrantRow.sort_order g2 = 0
         ∧ before g1 g2 (grants d2)
         ∧ before g1 g2 (select_grants cid d2)).
Proof.
  split_and!.
  - intros cid. split;
      [apply select_grants_sorted|apply select_grants_Permutation].
  - apply get_api_clients_authorized.
  - intros id c. apply get_api_client_found.
  - intros id cid f1 f2 f3 f4 f5 f6 f7 f8 f9 so d'
      [[_ [e [=]]]|(_ & _ & _ & ->)]%insert_grant_inv.
    eexists. split; [done|]. intros g Hg. by apply next_rowid_gt.
  - intros id1 id2 cid body1 body2 d1 d2 resp1 resp2
      (_ & _ & _ & g1 & -> & Hr1 & Hi1 & Hc1 & Hs1 & _)%post_api_clients_grants_inv
      (_ & _ & _ & g2 & -> & Hr2 & Hi2 & Hc2 & Hs2 & _)%post_api_clients_grants_inv.
    cbn [grants clients] in *.
    exists g1, g2. split_and!; [done..| |].
    + exists (grants d), [], []. by rewrite <- app_assoc.
    + apply (sorted_before by_sort_order_rowid).
      * apply select_grants_sorted.
      * apply elem_of_select_grants. split; [done|]. cbn [grants].
        rewrite !elem_of_app, !list_elem_of_singleton. auto.
      * apply elem_of_select_grants. split; [done|]. cbn [grants].
        rewrite !elem_of_app, !list_elem_of_singleton. auto.
      * assert (GrantRow.rowid g1 < GrantRow.rowid g2).
        { rewrite Hr2. apply next_rowid_gt.
          rewrite elem_of_app, list_elem_of_singleton. auto. }
        unfold by_sort_order_rowid. lia.
Qed.

Lemma grants_read_in_sort_order_witness :
  let d1 := (post_api_clients_grants env0 "g3" key0 "c1" (grant_named "C")
               store0).1 in
  let d2 := (post_api_clients_grants env0 "g4" key0 "c1" (grant_named "D")
               d1).1 in
  post_api_clients_grants env0 "g3" (Some (ADMIN_PASS env0)) "c1"
    (grant_named "C") store0
  = (d1, Ok (Response 200 (JObj {[ "id" := JStr "g3" ]})))
  ∧ post_api_clients_grants env0 "g4" (Some (ADMIN_PASS env0)) "c1"
      (grant_named "D") d1
    = (d2, Ok (Response 200 (JObj {[ "id" := JStr "g4" ]})))
  ∧ ∃ g1 g2,
      GrantRow.id g1 = "g3" ∧ GrantRow.id g2 = "g4"
      ∧ GrantRow.sort_order g1 = 0 ∧ GrantRow.sort_order g2 = 0
      ∧ before g1 g2 (grants d2)
      ∧ before g1 g2 (select_grants "c1" d2).
Proof.
  intros d1 d2.
  assert (post_api_clients_grants env0 "g3" (Some (ADMIN_PASS env0)) "c1"
            (grant_named "C") store0
          = (d1, Ok (Response 200 (JObj {[ "id" := JStr "g3" ]})))) as H1
    by (vm_compute; reflexivity).
  assert (post_api_clients_grants env0 "g4" (Some (ADMIN_PASS env0)) "c1"
            (grant_named "D") d1
          = (d2, Ok (Response 200 (JObj {[ "id" := JStr "g4" ]})))) as H2
    by (vm_compute; reflexivity).
  split; [exact H1|]. split; [exact H2|].
  exact (proj2 (proj2 (proj2 (proj2 (grants_read_in_sort_order env0 store0))))
           _ _ _ _ _ _ _ _ _ H1 H2).
Defined.

(** ** What a read returns for a stored field *)

Lemma stored_text_returned d v cell :
  stored_with_default d v cell →
  returned_with_default JStr d v (Some (text_json cell)).
Proof. intros (x & -> & Hx). by exists x. Qed.

Lemma stored_int_returned d v cell :
  stored_with_default d v cell →
  returned_with_default JNum d v (Some (int_json cell)).
Proof. intros (x & -> & Hx). by exists x. Qed.

Lemma client_obj_returns b c gs :
  client_fields_stored b c →
  client_fields_returned b (<["grants" := gs]> (client_obj c)).
Proof.
  intros (? & ? & ? & ? & ? & ?). unfold client_fields_returned.
  rewrite !lookup_insert_ne by done.
  split_and!; by apply stored_text_returned.
Qed.

Lemma grant_obj_returns b g :
  grant_fields_stored b g → grant_fields_returned b (grant_obj g).
Proof.
  intros (? & ? & ? & ? & ? & ? & ? & ? & ?). unfold grant_fields_returned.
  split_and!; (by apply stored_text_returned) || by apply stored_int_returned.
Qed.

Lemma select_client_appended id d row gs :
  id ∉ ClientRow.id <$> clients d →
  ClientRow.id row = id →
  select_client id (Db (clients d ++ [row]) gs) = Some row.
Proof.
  intros Hid Hrow. unfold select_client. cbn [clients].
  rewrite filter_app, filter_none.
  - simpl. by rewrite filter_cons_True.
  - apply Forall_forall. intros c Hc Heq. apply Hid, list_elem_of_fmap. eauto.
Qed.

(** C7. An authorized create of a client (with a name and a fresh id) or of
    a grant (for an existing client, with a fresh id) succeeds and appends
    one row in which every optional text field holds the submitted value,
    or the empty string when it was absent, null or empty, never NULL;
    [status] falls back to "open", [match_pct] to 70 and [presenter] to the
    organization label; a later read returns these values. *)
Theorem create_stores_defaults (env : process_env) (d : db) :
  (∀ now id name body,
     ClientBody.name body = Val name →
     id ∉ ClientRow.id <$> clients d →
     ∃ d' row o,
       post_api_clients env now id (Some (ADMIN_PASS env)) body d
       = (d', Ok (Response 200
                    (JObj (<["name" := JStr name]> {[ "id" := JStr id ]}))))
       ∧ clients d' = clients d ++ [row]
       ∧ grants d' = grants d
       ∧ ClientRow.id row = id
       ∧ ClientRow.name row = name
       ∧ client_fields_stored body row
       ∧ get_api_client id d' = (d', Ok (Response 200 (JObj o)))
       ∧ o !! "id" = Some (JStr id)
       ∧ o !! "name" = Some (JStr name)
       ∧ client_fields_returned body o)
  ∧ (∀ rnd cid body,
       rnd ∉ GrantRow.id <$> grants d →
       cid ∈ ClientRow.id <$> clients d →
       ∃ d' row l o gs og,
         post_api_clients_grants env rnd (Some (ADMIN_PASS env)) cid body d
         = (d', Ok (Response 200 (JObj {[ "id" := JStr rnd ]})))
         ∧ clients d' = clients d
         ∧ grants d' = grants d ++ [row]
         ∧ GrantRow.id row = rnd
         ∧ GrantRow.client_id row = cid
         ∧ GrantRow.sort_order row = 0
         ∧ grant_fields_stored body row
         ∧ get_api_clients env (Some (ADMIN_PASS env)) d'
           = (d', Ok (Response 200 (JArr l)))
         ∧ JObj o ∈ l
         ∧ o !! "id" = Some (JStr cid)
         ∧ o !! "grants" = Some (JArr gs)
         ∧ JObj og ∈ gs
         ∧ og !! "id" = Some (JStr rnd)
         ∧ og !! "client_id" = Some (JStr cid)
         ∧ og !! "sort_order" = Some (JNum 0)
         ∧ grant_fields_returned body og).
Proof.
  split.
  - intros now id name body Hname Hid.
    set (row := ClientRow.Build id name
                  (Some (ClientBody.contact body ||| ""))
                  (Some (ClientBody.sector body ||| ""))
                  (Some (ClientBody.email body ||| ""))
                  (Some (ClientBody.phone body ||| ""))
                  (Some (ClientBody.message body ||| ""))
                  (Some (ClientBody.presenter body ||| DEFAULT_presenter))
                  now now).
    assert (client_fields_stored body row) as Hstored.
    { unfold client_fields_stored. simpl. split_and!; auto. }
    exists (Db (clients d ++ [row]) (grants d)), row. eexists.
    split_and!; [|done..| | | |].
    + unfold post_api_clients. rewrite requireAdmin_accepts.
      unfold mbind, M_bind, insert_client. rewrite Hname. simpl.
      by rewrite decide_False.
    + apply get_api_client_found. by apply select_client_appended.
    + by rewrite lookup_insert_ne.
    + by rewrite lookup_insert_ne.
    + by apply client_obj_returns.
  - intros rnd cid body Hid Hcid.
    destruct (post_api_clients_grants_fresh env rnd cid body d Hid Hcid)
      as [d' Hpost].
    destruct (post_api_clients_grants_inv _ _ _ _ _ _ _ Hpost)
      as (_ & _ & _ & row & -> & _ & Hrid & Hrcid & Hso & Hstored).
    apply list_elem_of_fmap in Hcid as (c & -> & Hc).
    exists (Db (clients d) (grants d ++ [row])), row. eexists _, _, _, _.
    split_and!; [done..|apply get_api_clients_authorized| | | | | | | |].
    + apply list_elem_of_fmap. exists c. split; [done|].
      by apply elem_of_order_by.
    + by rewrite lookup_insert_ne.
    + by rewrite lookup_insert_eq.
    + apply list_elem_of_fmap. exists row. split; [done|].
      apply elem_of_select_grants. split; [done|]. cbn [grants].
      rewrite elem_of_app, list_elem_of_singleton. auto.
    + by rewrite <- Hrid.
    + by rewrite <- Hrcid.
    + by rewrite <- Hso.
    + by apply grant_obj_returns.
Qed.

Lemma create_stores_defaults_witness :
  ClientBody.name acme = Val "Acme"
  ∧ ("c2" ∉ ClientRow.id <$> clients store0)
  ∧ ("g3" ∉ GrantRow.id <$> grants store0)
  ∧ ("c1" ∈ ClientRow.id <$> clients store0)
  ∧ (∃ d' row,
       post_api_clients env0 "2024-01-02 09:00:00" "c2"
         (Some (ADMIN_PASS env0)) acme store0
       = (d', Ok (Response 200
                    (JObj (<["name" := JStr "Acme"]> {[ "id" := JStr "c2" ]}))))
       ∧ clients d' = clients store0 ++ [row]
       ∧ client_fields_stored acme row)
  ∧ (∃ d' row,
       post_api_clients_grants env0 "g3" (Some (ADMIN_PASS env0)) "c1"
         (grant_named "C") store0
       = (d', Ok (Response 200 (JObj {[ "id" := JStr "g3" ]})))
       ∧ grants d' = grants store0 ++ [row]
       ∧ grant_fields_stored (grant_named "C") row).
Proof.
  assert (ClientBody.name acme = Val "Acme") as H1 by reflexivity.
  assert ("c2" ∉ ClientRow.id <$> clients store0) as H2
    by (apply (bool_decide_unpack _); reflexivity).
  assert ("g3" ∉ GrantRow.id <$> grants store0) as H3
    by (apply (bool_decide_unpack _); reflexivity).
  assert ("c1" ∈ ClientRow.id <$> clients store0) as H4
    by (apply (bool_decide_unpack _); reflexivity).
  split_and!; [done..| |].
  - destruct (proj1 (create_stores_defaults env0 store0)
                "2024-01-02 09:00:00" "c2" "Acme" acme H1 H2)
      as (d' & row & o & Hpost & Hc & _ & _ & _ & Hs & _).
    by exists d', row.
  - destruct (proj2 (create_stores_defaults env0 store0)
                "g3" "c1" (grant_named "C") H3 H4)
      as (d' & row & l & o & gs & og & Hpost & _ & Hg & _ & _ & _ & Hs & _).
    by exists d', row.
Defined.

(** ** Updates and deletes that match no row *)

Lemma fmap_unchanged {A} (f : A → A) (l : list A) :
  (∀ x, x ∈ l → f x = x) → f <$> l = l.
Proof.
  intros Hf. rewrite <- (list_fmap_id l) at 2.
  apply list_fmap_ext. intros i x Hx. apply Hf. by eapply list_elem_of_lookup_2.
Qed.

Lemma db_eta d : Db (clients d) (grants d) = d.
Proof. by destruct d. Qed.

(** C8. An authorized update or delete of a client id or of a grant id that
    is not in the store answers [{ok: true}] and leaves the store exactly
    as it was: no row is created and no row is changed. *)
Theorem missing_id_is_noop (env : process_env) (d : db) :
  (∀ now id body,
     id ∉ ClientRow.id <$> clients d →
     put_api_clients_id env now (Some (ADMIN_PASS env)) id body d
     = (d, Ok (Response 200 (JObj {[ "ok" := JBool true ]}))))
  ∧ (∀ id body,
       id ∉ GrantRow.id <$> grants d →
       put_api_grants_id env (Some (ADMIN_PASS env)) id body d
       = (d, Ok (Response 200 (JObj {[ "ok" := JBool true ]}))))
  ∧ (∀ id,
       id ∉ ClientRow.id <$> clients d →
       delete_api_clients_id env (Some (ADMIN_PASS env)) id d
       = (d, Ok (Response 200 (JObj {[ "ok" := JBool true ]}))))
  ∧ (∀ id,
       id ∉ GrantRow.id <$> grants d →
       delete_api_grants_id env (Some (ADMIN_PASS env)) id d
       = (d, Ok (Response 200 (JObj {[ "ok" := JBool true ]})))).
Proof.
  split_and!.
  - intros now id body Hid. unfold put_api_clients_id.
    rewrite requireAdmin_accepts. unfold mbind, M_bind, update_client.
    by rewrite decide_False.
  - intros id body Hid. unfold put_api_grants_id.
    rewrite requireAdmin_accepts. unfold mbind, M_bind, update_grant, exec.
    rewrite fmap_unchanged, db_eta; [done|].
    intros g Hg. rewrite decide_False; [done|].
    intros Heq. apply Hid, list_elem_of_fmap. eauto.
  - intros id Hid. unfold delete_api_clients_id.
    rewrite requireAdmin_accepts. unfold mbind, M_bind, delete_client, exec.
    rewrite decide_False, filter_all, db_eta; [done| |done].
    apply Forall_forall. intros c Hc Heq. apply Hid, list_elem_of_fmap. eauto.
  - intros id Hid. unfold delete_api_grants_id.
    rewrite requireAdmin_accepts. unfold mbind, M_bind, delete_grant, exec.
    rewrite filter_all, db_eta; [done|].
    apply Forall_forall. intros g Hg Heq. apply Hid, list_elem_of_fmap. eauto.
Qed.

Lemma missing_id_is_noop_witness :
  ("zz" ∉ ClientRow.id <$> clients store0)
  ∧ ("zz" ∉ GrantRow.id <$> grants store0)
  ∧ put_api_clients_id env0 "2024-01-02 09:00:00" (Some (ADMIN_PASS env0))
      "zz" acme store0
    = (store0, Ok (Response 200 (JObj {[ "ok" := JBool true ]})))
  ∧ put_api_grants_id env0 (Some (ADMIN_PASS env0)) "zz" (grant_named "Q")
      store0
    = (store0, Ok (Response 200 (JObj {[ "ok" := JBool true ]})))
  ∧ delete_api_clients_id env0 (Some (ADMIN_PASS env0)) "zz" store0
    = (store0, Ok (Response 200 (JObj {[ "ok" := JBool true ]})))
  ∧ delete_api_grants_id env0 (Some (ADMIN_PASS env0)) "zz" store0
    = (store0, Ok (Response 200 (JObj {[ "ok" := JBool true ]}))).
Proof.
  assert ("zz" ∉ ClientRow.id <$> clients store0) as H1
    by (apply (bool_decide_unpack _); reflexivity).
  assert ("zz" ∉ GrantRow.id <$> grants store0) as H2
    by (apply (bool_decide_unpack _); reflexivity).
  destruct (missing_id_is_noop env0 store0) as (Hpc & Hpg & Hdc & Hdg).
  split_and!; [done|done|by apply Hpc|by apply Hpg|by apply Hdc|by apply Hdg].
Defined.

(** C9. An authorized update of a grant answers [{ok: true}]; every row
    with the given id keeps its [rowid], [id], [client_id] and [sort_order]
    and holds the submitted fields under the default policy in all its
    other columns; every other row, and the clients table, are as
    before. *)
Theorem grant_update_keeps_sort_order (env : process_env) (id : string)
    (body : GrantBody.t) (d : db) :
  ∃ d',
    put_api_grants_id env (Some (ADMIN_PASS env)) id body d
    = (d', Ok (Response 200 (JObj {[ "ok" := JBool true ]})))
    ∧ clients d' = clients d
    ∧ Forall2 (λ g g',
         (GrantRow.id g = id →
            GrantRow.rowid g' = GrantRow.rowid g
            ∧ GrantRow.id g' = GrantRow.id g
            ∧ GrantRow.client_id g' = GrantRow.client_id g
            ∧ GrantRow.sort_order g' = GrantRow.sort_order g
            ∧ grant_fields_stored body g')
         ∧ (GrantRow.id g ≠ id → g' = g))
        (grants d) (grants d').
Proof.
  eexists. split_and!.
  - unfold put_api_grants_id. rewrite requireAdmin_accepts.
    unfold mbind, M_bind, update_grant, exec. done.
  - done.
  - cbn [grants]. apply Forall2_fmap_r, Forall_Forall2_diag, Forall_forall.
    intros g _. simpl. unfold grant_fields_stored.
    case_decide; split; intros; simpl; split_and?; auto; done.
Qed.

Lemma grants_reference_existing_clients_witness :
  reachable env0 store0
  ∧ (∀ g, g ∈ grants store0 →
       GrantRow.client_id g ∈ ClientRow.id <$> clients store0)
  ∧ ∃ d',
      delete_api_clients_id env0 (Some (ADMIN_PASS env0)) "c1" store0
      = (d', Ok (Response 200 (JObj {[ "ok" := JBool true ]})))
      ∧ select_grants "c1" d' = []
      ∧ get_api_client "c1" d'
        = (d', Ok (Response 404 (JObj {[ "error" := JStr "Not found" ]}))).
Proof.
  pose proof store0_reachable as Hreach.
  destruct (grants_reference_existing_clients env0 store0 Hreach)
    as (Hinv & _ & Hdel).
  split; [done|]. split; [done|].
  destruct (Hdel "c1") as (d' & Hd & _ & _ & Hsel & Hget & _).
  by exists d'.
Defined.

(** * Further properties of the handlers *)

(** ** Primary keys and rowids along a handler *)

Lemma StronglySorted_filter {A} (R : relation A) (P : A → Prop)
    `{!∀ x, Decision (P x)} (l : list A) :
  StronglySorted R l → StronglySorted R (filter P l).
Proof.
  induction 1 as [|x l Hl IH Hx]; [constructor|].
  destruct (decide (P x)).
  - rewrite filter_cons_True by done. constructor; [done|].
    apply Forall_forall. intros y [_ Hy]%list_elem_of_filter.
    rewrite Forall_forall in Hx. by apply Hx.
  - by rewrite filter_cons_False.
Qed.

Lemma NoDup_fmap_filter {A B} (f : A → B) (P : A → Prop)
    `{!∀ x, Decision (P x)} (l : list A) :
  NoDup (f <$> l) → NoDup (f <$> filter P l).
Proof.
  intros Hl. eapply sublist_NoDup; [exact Hl|].
  apply fmap_sublist, sublist_filter.
Qed.

Lemma NoDup_snoc_fresh {A} (l : list A) (x : A) :
  NoDup l → x ∉ l → NoDup (l ++ [x]).
Proof.
  intros Hl Hx. apply NoDup_app. split_and!; [done| |apply NoDup_singleton].
  intros y Hy ->%list_elem_of_singleton. done.
Qed.

Lemma update_grant_ids (f : GrantRow.t → GrantRow.t) (l : list GrantRow.t) :
  (∀ g, GrantRow.id (f g) = GrantRow.id g) →
  GrantRow.id <$> (f <$> l) = GrantRow.id <$> l.
Proof.
  intros Hf. rewrite <- list_fmap_compose. apply list_fmap_ext.
  intros _ g _. apply Hf.
Qed.

Lemma insert_client_keys now id name c1 c2 c3 c4 c5 c6 :
  preserves keys_unique (insert_client now id name c1 c2 c3 c4 c5 c6).
Proof.
  intros d [Hc Hg]. unfold insert_client.
  destruct name; [|done]. case_decide; [done|].
  split; cbn [fst clients grants]; [|done].
  rewrite fmap_app. by apply NoDup_snoc_fresh.
Qed.

Lemma update_client_keys now name c1 c2 c3 c4 c5 c6 id :
  preserves keys_unique (update_client now name c1 c2 c3 c4 c5 c6 id).
Proof.
  intros d [Hc Hg]. split.
  - by rewrite update_client_ids.
  - by rewrite update_client_grants.
Qed.

Lemma delete_client_keys id : preserves keys_unique (delete_client id).
Proof.
  intros d [Hc Hg]. unfold delete_client, exec. cbn [fst clients grants].
  split; [by apply NoDup_fmap_filter|].
  case_decide; [by apply NoDup_fmap_filter|done].
Qed.

Lemma insert_grant_keys id cid f1 f2 f3 f4 f5 f6 f7 f8 f9 so :
  preserves keys_unique (insert_grant id cid f1 f2 f3 f4 f5 f6 f7 f8 f9 so).
Proof.
  intros d [Hc Hg]. unfold insert_grant. repeat case_decide; try done.
  split; cbn [fst clients grants]; [done|].
  rewrite fmap_app. by apply NoDup_snoc_fresh.
Qed.

Lemma update_grant_keys f1 f2 f3 f4 f5 f6 f7 f8 f9 id :
  preserves keys_unique (update_grant f1 f2 f3 f4 f5 f6 f7 f8 f9 id).
Proof.
  intros d [Hc Hg]. unfold update_grant, exec.
  split; cbn [fst clients grants]; [done|]. rewrite update_grant_ids; [done|].
  intros g. by case_decide.
Qed.

Lemma delete_grant_keys id : preserves keys_unique (delete_grant id).
Proof.
  intros d [Hc Hg]. unfold delete_grant, exec. cbn [fst clients grants].
  split; [done|]. by apply NoDup_fmap_filter.
Qed.

Lemma delete_grants_of_keys cid : preserves keys_unique (delete_grants_of cid).
Proof.
  intros d [Hc Hg]. unfold delete_grants_of, exec. cbn [fst clients grants].
  split; [done|]. by apply NoDup_fmap_filter.
Qed.

Lemma insert_client_rowids now id name c1 c2 c3 c4 c5 c6 :
  preserves rowids_increasing (insert_client now id name c1 c2 c3 c4 c5 c6).
Proof.
  intros d Hd. unfold insert_client.
  destruct name; [|done]. by case_decide.
Qed.

Lemma update_client_rowids now name c1 c2 c3 c4 c5 c6 id :
  preserves rowids_increasing (update_client now name c1 c2 c3 c4 c5 c6 id).
Proof.
  intros d Hd. unfold rowids_increasing. by rewrite update_client_grants.
Qed.

Lemma delete_client_rowids id : preserves rowids_increasing (delete_client id).
Proof.
  intros d Hd. unfold delete_client, exec, rowids_increasing.
  cbn [fst clients grants]. case_decide; [by apply StronglySorted_filter|done].
Qed.

Lemma insert_grant_rowids id cid f1 f2 f3 f4 f5 f6 f7 f8 f9 so :
  preserves rowids_increasing
    (insert_grant id cid f1 f2 f3 f4 f5 f6 f7 f8 f9 so).
Proof.
  intros d Hd. unfold insert_grant. repeat case_decide; try done.
  unfold rowids_increasing. cbn [fst clients grants].
  apply StronglySorted_app. split_and!; [|done|repeat constructor].
  intros g1 g2 Hg1 ->%list_elem_of_singleton. cbn [GrantRow.rowid].
  by apply next_rowid_gt.
Qed.

Lemma StronglySorted_fmap_keys {A} (R : relation A) (f : A → A) (l : list A) :
  (∀ x y, R x y → R (f x) (f y)) →
  StronglySorted R l → StronglySorted R (f <$> l).
Proof.
  intros Hf. induction 1 as [|x l Hl IH Hx]; [constructor|].
  rewrite fmap_cons. constructor; [done|].
  apply Forall_fmap. eapply Forall_impl; [exact Hx|]. intros y. apply Hf.
Qed.

Lemma update_grant_rowids f1 f2 f3 f4 f5 f6 f7 f8 f9 id :
  preserves rowids_increasing (update_grant f1 f2 f3 f4 f5 f6 f7 f8 f9 id).
Proof.
  intros d Hd. unfold update_grant, exec, rowids_increasing.
  cbn [fst clients grants]. apply StronglySorted_fmap_keys; [|done].
  intros g1 g2 Hlt. by repeat case_decide.
Qed.

Lemma delete_grant_rowids id : preserves rowids_increasing (delete_grant id).
Proof.
  intros d Hd. unfold delete_grant, exec, rowids_increasing.
  cbn [fst clients grants]. by apply StronglySorted_filter.
Qed.

Lemma delete_grants_of_rowids cid :
  preserves rowids_increasing (delete_grants_of cid).
Proof.
  intros d Hd. unfold delete_grants_of, exec, rowids_increasing.
  cbn [fst clients grants]. by apply StronglySorted_filter.
Qed.

#[local] Hint Resolve insert_client_keys update_client_keys delete_client_keys
  insert_grant_keys update_grant_keys delete_grant_keys delete_grants_of_keys
  insert_client_rowids update_client_rowids delete_client_rowids
  insert_grant_rowids update_grant_rowids delete_grant_rowids
  delete_grants_of_rowids : core.

(** a property kept by the seven statements is kept by every handler *)
Lemma handle_preserves (P : db → Prop) env r :
  (∀ now id name c1 c2 c3 c4 c5 c6,
     preserves P (insert_client now id name c1 c2 c3 c4 c5 c6)) →
  (∀ now name c1 c2 c3 c4 c5 c6 id,
     preserves P (update_client now name c1 c2 c3 c4 c5 c6 id)) →
  (∀ id, preserves P (delete_client id)) →
  (∀ id cid f1 f2 f3 f4 f5 f6 f7 f8 f9 so,
     preserves P (insert_grant id cid f1 f2 f3 f4 f5 f6 f7 f8 f9 so)) →
  (∀ f1 f2 f3 f4 f5 f6 f7 f8 f9 id,
     preserves P (update_grant f1 f2 f3 f4 f5 f6 f7 f8 f9 id)) →
  (∀ id, preserves P (delete_grant id)) →
  (∀ cid, preserves P (delete_grants_of cid)) →
  preserves P (handle env r).
Proof.
  intros H1 H2 H3 H4 H5 H6 H7.
  destruct r; simpl;
    unfold get_api_clients, get_api_client, post_api_clients,
      put_api_clients_id, delete_api_clients_id, post_api_clients_grants,
      put_api_grants_id, delete_api_grants_id, put_api_clients_grants,
      bulk_callback, insert_grant_default_order;
    try apply preserves_requireAdmin;
    repeat (apply preserves_bind; [|intros ?]);
    try apply preserves_forEach; intros;
    repeat (apply preserves_bind; [|intros ?]); auto.
  destruct a; [|auto].
  apply preserves_bind; [|intros ?]; auto.
Qed.

(** X1. In every store the server can reach from the empty database, no
    two clients share an [id] and no two grants share an [id]. *)
Theorem reachable_keys_unique (env : process_env) (d : db) :
  reachable env d →
  NoDup (ClientRow.id <$> clients d) ∧ NoDup (GrantRow.id <$> grants d).
Proof.
  induction 1 as [|d r _ IH]; [split; constructor|].
  apply (handle_preserves keys_unique); auto.
Qed.

Lemma reachable_keys_unique_witness :
  reachable env0 store0
  ∧ NoDup (ClientRow.id <$> clients store0)
  ∧ NoDup (GrantRow.id <$> grants store0).
Proof.
  split; [apply store0_reachable|].
  apply (reachable_keys_unique env0 store0), store0_reachable.
Defined.

Lemma reachable_rowids_increasing env d :
  reachable env d → rowids_increasing d.
Proof.
  induction 1 as [|d r _ IH]; [constructor|].
  apply (handle_preserves rowids_increasing); auto.
Qed.

Lemma before_rowids g1 g2 d :
  rowids_increasing d → before g1 g2 (grants d) →
  GrantRow.rowid g1 < GrantRow.rowid g2.
Proof.
  unfold rowids_increasing. intros Hd (l1 & l2 & l3 & Hl). rewrite Hl in Hd.
  apply StronglySorted_app in Hd as (_ & _ & Hd).
  apply StronglySorted_cons in Hd as [Hd _].
  rewrite Forall_forall in Hd. apply Hd.
  rewrite elem_of_app, elem_of_cons. auto.
Qed.

Lemma before_elem_of {A} (x y : A) l : before x y l → x ∈ l ∧ y ∈ l.
Proof.
  intros (l1 & l2 & l3 & ->). split.
  - apply elem_of_app. right. apply elem_of_cons. by left.
  - apply elem_of_app. right. apply elem_of_cons. right.
    apply elem_of_app. right. apply elem_of_cons. by left.
Qed.

(** X2. In every reachable store the grants table is in rowid order, and
    a read of a client's grants is a stable sort of it by [sort_order]:
    of two grants of the client, the one created first is read first
    unless its [sort_order] is larger. *)
Theorem reads_keep_creation_order (env : process_env) (d : db) :
  reachable env d →
  StronglySorted (λ g1 g2, GrantRow.rowid g1 < GrantRow.rowid g2) (grants d)
  ∧ ∀ cid g1 g2,
      before g1 g2 (grants d) →
      GrantRow.client_id g1 = cid →
      GrantRow.client_id g2 = cid →
      GrantRow.sort_order g1 ≤ GrantRow.sort_order g2 →
      before g1 g2 (select_grants cid d).
Proof.
  intros Hd%reachable_rowids_increasing. split; [exact Hd|].
  intros cid g1 g2 Hb Hc1 Hc2 Hso.
  pose proof (before_rowids _ _ _ Hd Hb) as Hlt.
  destruct (before_elem_of _ _ _ Hb) as [Hg1 Hg2].
  apply (sorted_before by_sort_order_rowid).
  - apply select_grants_sorted.
  - by apply elem_of_select_grants.
  - by apply elem_of_select_grants.
  - unfold by_sort_order_rowid. lia.
Qed.

Lemma reads_keep_creation_order_witness :
  reachable env0 store0
  ∧ ∃ g1 g2,
      grants store0 = [g1; g2]
      ∧ before g1 g2 (select_grants "c1" store0).
Proof.
  split; [apply store0_reachable|].
  eexists _, _. split; [reflexivity|].
  apply (proj2 (reads_keep_creation_order env0 store0 store0_reachable) "c1").
  - exists [], [], []. reflexivity.
  - reflexivity.
  - reflexivity.
  - cbn. lia.
Defined.

(** ** Who can change the store, and when a failed request leaves it *)

Lemma post_api_clients_throw env now rnd auth body d d' e :
  post_api_clients env now rnd auth body d = (d', Throw e) → d' = d.
Proof.
  unfold post_api_clients, requireAdmin. case_decide; [done|].
  unfold mbind, M_bind, insert_client.
  destruct (bind (ClientBody.name body)); [|by intros [= <-]].
  case_decide; [by intros [= <-]|done].
Qed.

Lemma put_api_clients_id_throw env now auth id body d d' e :
  put_api_clients_id env now auth id body d = (d', Throw e) → d' = d.
Proof.
  unfold put_api_clients_id, requireAdmin. case_decide; [done|].
  unfold mbind, M_bind, update_client. case_decide; [|done].
  destruct (bind (ClientBody.name body)); [done|by intros [= <-]].
Qed.

Lemma post_api_clients_grants_throw env rnd auth cid body d d' e :
  post_api_clients_grants env rnd auth cid body d = (d', Throw e) → d' = d.
Proof.
  unfold post_api_clients_grants, requireAdmin. case_decide; [done|].
  unfold mbind, M_bind, insert_grant_default_order.
  destruct (insert_grant _ _ _ _ _ _ _ _ _ _ _ _ d) as [d1 r1] eqn:Hins.
  apply insert_grant_inv in Hins as [[-> [e' ->]]|(-> & _)];
    [by intros [= <-]|done].
Qed.

(** X3. Every route other than the bulk replace runs at most one statement
    that changes the store, so a request to it that fails (the handler
    throws) leaves the store exactly as it was. *)
Theorem failed_request_changes_nothing (env : process_env) (r : request)
    (d d' : db) (e : exn) :
  single_statement r = true →
  handle env r d = (d', Throw e) →
  d' = d.
Proof.
  intros Hr. destruct r; simpl in *; try done.
  - unfold get_api_clients, requireAdmin. by case_decide.
  - unfold get_api_client, mbind, M_bind, query. simpl.
    by destruct (select_client id d).
  - apply post_api_clients_throw.
  - apply put_api_clients_id_throw.
  - unfold delete_api_clients_id, requireAdmin. by case_decide.
  - apply post_api_clients_grants_throw.
  - unfold put_api_grants_id, requireAdmin. by case_decide.
  - unfold delete_api_grants_id, requireAdmin. by case_decide.
Qed.

Lemma failed_request_changes_nothing_witness :
  let r := POST_api_clients_grants "g1" key0 "c1" (grant_named "again") in
  single_statement r = true
  ∧ handle env0 r store0 = (store0, Throw (SqliteError PRIMARY_KEY)).
Proof.
  intros r.
  assert (handle env0 r store0 = ((handle env0 r store0).1,
            Throw (SqliteError PRIMARY_KEY))) as Hr by reflexivity.
  split; [reflexivity|].
  pose proof (failed_request_changes_nothing env0 r store0 _ _ eq_refl Hr)
    as Hd.
  exact (eq_trans Hr (f_equal (λ x, (x, Throw (SqliteError PRIMARY_KEY))) Hd)).
Defined.

(** X4. Only a request that carries the configured admin key can change the
    store: any other request, the public read included, is answered (it
    does not throw) and leaves the store as it was. *)
Theorem without_key_nothing_changes (env : process_env) (r : request)
    (d : db) :
  credential r ≠ Some (Some (ADMIN_PASS env)) →
  ∃ resp, handle env r d = (d, Ok resp).
Proof.
  intros Hcred.
  assert (∀ auth next, credential r = Some auth →
            ∃ resp, requireAdmin env auth next d = (d, Ok resp)) as Hreject.
  { intros auth next Hauth. eexists. apply requireAdmin_rejects.
    intros ->. by apply Hcred. }
  destruct r; simpl in *; try by apply Hreject.
  unfold get_api_client, mbind, M_bind, query. simpl.
  destruct (select_client id d); by eexists.
Qed.

Lemma without_key_nothing_changes_witness :
  let r := DELETE_api_clients_id (Some "guess") "c1" in
  credential r ≠ Some (Some (ADMIN_PASS env0))
  ∧ ∃ resp, handle env0 r store0 = (store0, Ok resp).
Proof.
  intros r.
  assert (credential r ≠ Some (Some (ADMIN_PASS env0))) as H by discriminate.
  split; [exact H|]. exact (without_key_nothing_changes env0 r store0 H).
Defined.

(** ** Updating a client *)

(** X5. An authorized update of a client whose body has a name answers
    [{ok: true}]: every row with the given id keeps its [id] and
    [created_at], takes the submitted name, the other fields under the
    default policy and [updated_at = now]; every other client and the
    grants table are as before. Without a name, on an id that is in the
    store, the update throws (NOT NULL) and changes nothing. *)
Theorem client_update_overwrites (env : process_env) (now id : string)
    (body : ClientBody.t) (d : db) :
  (∀ name, ClientBody.name body = Val name →
     ∃ d',
       put_api_clients_id env now (Some (ADMIN_PASS env)) id body d
       = (d', Ok (Response 200 (JObj {[ "ok" := JBool true ]})))
       ∧ grants d' = grants d
       ∧ Forall2 (λ c c',
            (ClientRow.id c = id →
               ClientRow.id c' = ClientRow.id c
               ∧ ClientRow.name c' = name
               ∧ ClientRow.created_at c' = ClientRow.created_at c
               ∧ ClientRow.updated_at c' = now
               ∧ client_fields_stored body c')
            ∧ (ClientRow.id c ≠ id → c' = c))
           (clients d) (clients d'))
  ∧ ((∀ name, ClientBody.name body ≠ Val name) →
     id ∈ ClientRow.id <$> clients d →
     put_api_clients_id env now (Some (ADMIN_PASS env)) id body d
     = (d, Throw (SqliteError NOT_NULL))).
Proof.
  split.
  - intros name Hname. unfold put_api_clients_id.
    rewrite requireAdmin_accepts. unfold mbind, M_bind, update_client.
    rewrite Hname. simpl. case_decide as Hid.
    + eexists. split_and!; [done..|]. cbn [clients].
      apply Forall2_fmap_r, Forall_Forall2_diag, Forall_forall.
      intros c _. simpl. unfold client_fields_stored.
      case_decide; split; intros; simpl; split_and?; auto; done.
    + exists d. split_and!; [done..|].
      apply Forall_Forall2_diag, Forall_forall. intros c Hc. split; [|done].
      intros Heq. destruct Hid. apply list_elem_of_fmap. eauto.
  - intros Hname Hid. unfold put_api_clients_id.
    rewrite requireAdmin_accepts. unfold mbind, M_bind, update_client.
    rewrite decide_True by done.
    destruct (ClientBody.name body) as [| |name]; [done..|].
    by destruct (Hname name).
Qed.

Lemma client_update_overwrites_witness :
  let body := ClientBody.Build (Val "Acme Ltd") (Val "Dana") Undefined Null
                Undefined Undefined Undefined in
  let nameless := ClientBody.Build Null (Val "Dana") Undefined Null
                    Undefined Undefined Undefined in
  ClientBody.name body = Val "Acme Ltd"
  ∧ (∀ name, ClientBody.name nameless ≠ Val name)
  ∧ ("c1" ∈ ClientRow.id <$> clients store0)
  ∧ (∃ d',
       put_api_clients_id env0 "2024-02-01 08:00:00" (Some (ADMIN_PASS env0))
         "c1" body store0
       = (d', Ok (Response 200 (JObj {[ "ok" := JBool true ]})))
       ∧ grants d' = grants store0)
  ∧ put_api_clients_id env0 "2024-02-01 08:00:00" (Some (ADMIN_PASS env0))
      "c1" nameless store0
    = (store0, Throw (SqliteError NOT_NULL)).
Proof.
  intros body nameless.
  assert (ClientBody.name body = Val "Acme Ltd") as H1 by reflexivity.
  assert (∀ name, ClientBody.name nameless ≠ Val name) as H2 by done.
  assert ("c1" ∈ ClientRow.id <$> clients store0) as H3
    by (apply (bool_decide_unpack _); reflexivity).
  split_and!; [done..| |].
  - destruct (proj1 (client_update_overwrites env0 "2024-02-01 08:00:00"
                       "c1" body store0) _ H1) as (d' & Hput & Hg & _).
    by exists d'.
  - exact (proj2 (client_update_overwrites env0 "2024-02-01 08:00:00"
                    "c1" nameless store0) H2 H3).
Defined.

(** ** The admin key *)

(** X7. Whatever [ADMIN_PASSWORD] is set to, the configured secret is not
    the empty string: an empty [x-admin-key] header is rejected with 401 by
    every protected route, like an absent one. *)
Theorem empty_key_never_accepted (env : process_env) (r : request) (d : db) :
  ADMIN_PASS env ≠ ""
  ∧ (credential r = Some (Some "") ∨ credential r = Some None →
     handle env r d
     = (d, Ok (Response 401 (JObj {[ "error" := JStr "Unauthorized" ]})))).
Proof.
  assert (ADMIN_PASS env ≠ "") as Hpass.
  { unfold ADMIN_PASS. destruct (ADMIN_PASSWORD env) as [| |[|a s]]; done. }
  split; [done|]. intros Hcred.
  assert (∀ auth next, credential r = Some auth →
            requireAdmin env auth next d
            = (d, Ok (Response 401
                        (JObj {[ "error" := JStr "Unauthorized" ]}))))
    as Hreject.
  { intros auth next Hauth. apply requireAdmin_rejects. intros ->.
    rewrite Hauth in Hcred. destruct Hcred as [[= Heq]|[=]]. by apply Hpass. }
  destruct r; simpl in *; try by apply Hreject.
  by destruct Hcred.
Qed.

Lemma empty_key_never_accepted_witness :
  let env := Env (Val "") in
  let r := PUT_api_clients_grants ids0 (Some "") "c1" (BulkBody.Build (Val [])) in
  (credential r = Some (Some "") ∨ credential r = Some None)
  ∧ handle env r store0
    = (store0, Ok (Response 401 (JObj {[ "error" := JStr "Unauthorized" ]}))).
Proof.
  intros env r.
  assert (credential r = Some (Some "") ∨ credential r = Some None) as H
    by (left; reflexivity).
  split; [exact H|].
  exact (proj2 (empty_key_never_accepted env r store0) H).
Defined.

(** ** Sorting, filtering and updating commute *)

Section order_by_more.
Context {A : Type} (R : relation A) `{!RelDecision R}.

Lemma insert_row_head x l : Forall (R x) l → insert_row R x l = x :: l.
Proof. destruct 1; simpl; [done|]. by rewrite decide_True. Qed.

Lemma insert_row_filter_out (P : A → Prop) `{!∀ x, Decision (P x)} x l :
  ¬ P x → filter P (insert_row R x l) = filter P l.
Proof.
  intros Hx. induction l as [|y l IH]; simpl.
  - by rewrite filter_cons_False.
  - case_decide; [by rewrite filter_cons_False|].
    destruct (decide (P y)).
    + by rewrite !filter_cons_True, IH.
    + by rewrite !filter_cons_False, IH.
Qed.

Lemma insert_row_filter `{!Transitive R} (P : A → Prop)
    `{!∀ x, Decision (P x)} x l :
  StronglySorted R l → P x →
  filter P (insert_row R x l) = insert_row R x (filter P l).
Proof.
  intros Hl Hx. induction Hl as [|y l Hl IH Hy]; simpl.
  - by rewrite filter_cons_True.
  - case_decide as Hxy.
    + rewrite filter_cons_True by done. symmetry. apply insert_row_head.
      apply Forall_forall. intros z [_ Hz]%list_elem_of_filter.
      apply elem_of_cons in Hz as [->|Hz]; [done|].
      rewrite Forall_forall in Hy. etrans; [exact Hxy|]. by apply Hy.
    + destruct (decide (P y)).
      * rewrite !filter_cons_True by done. simpl.
        by rewrite decide_False, IH.
      * by rewrite !filter_cons_False.
Qed.

Lemma order_by_filter `{!Total R, !Transitive R} (P : A → Prop)
    `{!∀ x, Decision (P x)} l :
  order_by R (filter P l) = filter P (order_by R l).
Proof.
  induction l as [|x l IH]; [done|]. simpl. fold (order_by R l).
  destruct (decide (P x)).
  - rewrite filter_cons_True by done. simpl. fold (order_by R (filter P l)).
    rewrite IH, insert_row_filter; [done| |done].
    by apply order_by_sorted.
  - rewrite filter_cons_False by done. by rewrite insert_row_filter_out.
Qed.

Lemma insert_row_fmap (f : A → A) x l :
  (∀ a b, R (f a) (f b) ↔ R a b) →
  insert_row R (f x) (f <$> l) = f <$> insert_row R x l.
Proof.
  intros Hf. induction l as [|y l IH]; [done|].
  rewrite fmap_cons. cbn [insert_row].
  destruct (decide (R x y)) as [Hxy|Hxy].
  - rewrite decide_True; [done|]. by apply Hf.
  - rewrite decide_False; [|by rewrite Hf]. by rewrite IH.
Qed.

Lemma order_by_fmap (f : A → A) l :
  (∀ a b, R (f a) (f b) ↔ R a b) →
  order_by R (f <$> l) = f <$> order_by R l.
Proof.
  intros Hf. induction l as [|x l IH]; [done|].
  rewrite fmap_cons. unfold order_by in *. cbn [foldr].
  by rewrite IH, insert_row_fmap.
Qed.
End order_by_more.

Lemma filter_fmap_keys {A} (P : A → Prop) `{!∀ x, Decision (P x)}
    (f : A → A) (l : list A) :
  (∀ x, P (f x) ↔ P x) → filter P (f <$> l) = f <$> filter P l.
Proof.
  intros Hf. induction l as [|x l IH]; [done|]. rewrite fmap_cons.
  destruct (decide (P x)).
  - rewrite !filter_cons_True, fmap_cons, IH; [done..|]. by apply Hf.
  - rewrite !filter_cons_False, IH; [done..|]. by rewrite Hf.
Qed.

(** ** Deleting and updating a grant, seen through the reads *)

(** X8. An authorized delete of a grant answers [{ok: true}], leaves the
    clients table alone, and removes the grant from every read without
    disturbing the others: each client's grants are read back as before
    with the rows of that id taken out. *)
Theorem grant_delete_removes_from_reads (env : process_env) (gid : string)
    (d : db) :
  ∃ d',
    delete_api_grants_id env (Some (ADMIN_PASS env)) gid d
    = (d', Ok (Response 200 (JObj {[ "ok" := JBool true ]})))
    ∧ clients d' = clients d
    ∧ (gid ∉ GrantRow.id <$> grants d')
    ∧ ∀ cid,
        select_grants cid d'
        = filter (λ g, GrantRow.id g ≠ gid) (select_grants cid d).
Proof.
  eexists. split_and!.
  - unfold delete_api_grants_id. rewrite requireAdmin_accepts.
    unfold mbind, M_bind, delete_grant, exec. done.
  - done.
  - cbn [grants].
    by intros (g & -> & [Hne _]%list_elem_of_filter)%list_elem_of_fmap.
  - intros cid. unfold select_grants. cbn [grants].
    rewrite <- order_by_filter by apply _. f_equal.
    rewrite !list_filter_filter. apply list_filter_iff. intros g. tauto.
Qed.

(** X9. An authorized update of a grant never reorders a client's grants
    and never moves a grant to another client: every client's grants are
    read back with the same ids, in the same order, with the same
    [sort_order]. *)
Theorem grant_update_keeps_read_order (env : process_env) (gid : string)
    (body : GrantBody.t) (d : db) :
  ∃ d',
    put_api_grants_id env (Some (ADMIN_PASS env)) gid body d
    = (d', Ok (Response 200 (JObj {[ "ok" := JBool true ]})))
    ∧ ∀ cid,
        GrantRow.id <$> select_grants cid d'
        = GrantRow.id <$> select_grants cid d
        ∧ GrantRow.sort_order <$> select_grants cid d'
          = GrantRow.sort_order <$> select_grants cid d.
Proof.
  eexists. split.
  - unfold put_api_grants_id. rewrite requireAdmin_accepts.
    unfold mbind, M_bind, update_grant, exec. done.
  - intros cid. unfold select_grants. cbn [grants].
    rewrite filter_fmap_keys, order_by_fmap.
    + rewrite <- !list_fmap_compose.
      split; apply list_fmap_ext; intros _ g _; simpl; by case_decide.
    + intros a b. unfold by_sort_order_rowid. by repeat case_decide.
    + intros g. by case_decide.
Qed.

(** ** Create, then delete *)

Lemma filter_snoc_out {A} (P : A → Prop) `{!∀ x, Decision (P x)} l x :
  Forall P l → ¬ P x → filter P (l ++ [x]) = l.
Proof.
  intros Hl Hx. rewrite filter_app, filter_all by done.
  by rewrite filter_cons_False, app_nil_r.
Qed.

(** X10. Creating a grant and then deleting it by the id the create
    returned gives back the store as it was; so does creating a client and
    then deleting it, when no grant carries the new client's id. *)
Theorem create_then_delete_restores (env : process_env) (d : db) :
  (∀ rnd cid body,
     rnd ∉ GrantRow.id <$> grants d →
     cid ∈ ClientRow.id <$> clients d →
     ∃ d1,
       post_api_clients_grants env rnd (Some (ADMIN_PASS env)) cid body d
       = (d1, Ok (Response 200 (JObj {[ "id" := JStr rnd ]})))
       ∧ delete_api_grants_id env (Some (ADMIN_PASS env)) rnd d1
         = (d, Ok (Response 200 (JObj {[ "ok" := JBool true ]}))))
  ∧ (∀ now id name body,
       ClientBody.name body = Val name →
       id ∉ ClientRow.id <$> clients d →
       (∀ g, g ∈ grants d → GrantRow.client_id g ≠ id) →
       ∃ d1,
         post_api_clients env now id (Some (ADMIN_PASS env)) body d
         = (d1, Ok (Response 200
                      (JObj (<["name" := JStr name]> {[ "id" := JStr id ]}))))
         ∧ delete_api_clients_id env (Some (ADMIN_PASS env)) id d1
           = (d, Ok (Response 200 (JObj {[ "ok" := JBool true ]})))).
Proof.
  split.
  - intros rnd cid body Hid Hcid. eexists. split.
    + unfold post_api_clients_grants. rewrite requireAdmin_accepts.
      unfold mbind, M_bind, insert_grant_default_order.
      by rewrite insert_grant_fresh.
    + unfold delete_api_grants_id. rewrite requireAdmin_accepts.
      unfold mbind, M_bind, delete_grant, exec. cbn [clients grants].
      rewrite filter_snoc_out, db_eta; [done| |by intros []].
      apply Forall_forall. intros g Hg Heq. apply Hid, list_elem_of_fmap. eauto.
  - intros now id name body Hname Hid Hgrants. eexists. split.
    + unfold post_api_clients. rewrite requireAdmin_accepts.
      unfold mbind, M_bind, insert_client. rewrite Hname. simpl.
      by rewrite decide_False.
    + unfold delete_api_clients_id. rewrite requireAdmin_accepts.
      unfold mbind, M_bind, delete_client, exec. cbn [clients grants].
      rewrite filter_snoc_out; [| |by intros []].
      * rewrite decide_True, filter_all, db_eta; [done| |].
        -- apply Forall_forall. intros g Hg. by apply Hgrants.
        -- rewrite fmap_app. apply elem_of_app. right.
           by apply list_elem_of_singleton.
      * apply Forall_forall. intros c Hc Heq.
        apply Hid, list_elem_of_fmap. eauto.
Qed.

Lemma create_then_delete_restores_witness :
  ("g3" ∉ GrantRow.id <$> grants store0)
  ∧ ("c1" ∈ ClientRow.id <$> clients store0)
  ∧ ClientBody.name acme = Val "Acme"
  ∧ ("c2" ∉ ClientRow.id <$> clients store0)
  ∧ (∀ g, g ∈ grants store0 → GrantRow.client_id g ≠ "c2")
  ∧ (∃ d1,
       post_api_clients_grants env0 "g3" (Some (ADMIN_PASS env0)) "c1"
         (grant_named "C") store0
       = (d1, Ok (Response 200 (JObj {[ "id" := JStr "g3" ]})))
       ∧ delete_api_grants_id env0 (Some (ADMIN_PASS env0)) "g3" d1
         = (store0, Ok (Response 200 (JObj {[ "ok" := JBool true ]}))))
  ∧ (∃ d1,
       post_api_clients env0 "2024-01-02 09:00:00" "c2"
         (Some (ADMIN_PASS env0)) acme store0
       = (d1, Ok (Response 200
                    (JObj (<["name" := JStr "Acme"]> {[ "id" := JStr "c2" ]}))))
       ∧ delete_api_clients_id env0 (Some (ADMIN_PASS env0)) "c2" d1
         = (store0, Ok (Response 200 (JObj {[ "ok" := JBool true ]})))).
Proof.
  assert ("g3" ∉ GrantRow.id <$> grants store0) as H1
    by (apply (bool_decide_unpack _); reflexivity).
  assert ("c1" ∈ ClientRow.id <$> clients store0) as H2
    by (apply (bool_decide_unpack _); reflexivity).
  assert (ClientBody.name acme = Val "Acme") as H3 by reflexivity.
  assert ("c2" ∉ ClientRow.id <$> clients store0) as H4
    by (apply (bool_decide_unpack _); reflexivity).
  assert (∀ g, g ∈ grants store0 → GrantRow.client_id g ≠ "c2") as H5.
  { apply Forall_forall. apply (bool_decide_unpack _). reflexivity. }
  split_and!; [done..| |].
  - exact (proj1 (create_then_delete_restores env0 store0) "g3" "c1"
             (grant_named "C") H1 H2).
  - exact (proj2 (create_then_delete_restores env0 store0)
             "2024-01-02 09:00:00" "c2" "Acme" acme H3 H4 H5).
Defined.

(** ** Repeating a delete *)

Lemma filter_filter_same {A} (P : A → Prop) `{!∀ x, Decision (P x)}
    (l : list A) :
  filter P (filter P l) = filter P l.
Proof. apply filter_all, Forall_forall. by intros x [? _]%list_elem_of_filter. Qed.

(** X11. Deletes are idempotent: repeating an authorized delete of a client
    or of a grant answers [{ok: true}] again and leaves the store as the
    first delete left it. *)
Theorem delete_twice_is_delete_once (env : process_env) (id : string)
    (d : db) :
  (let d1 := (delete_api_clients_id env (Some (ADMIN_PASS env)) id d).1 in
   delete_api_clients_id env (Some (ADMIN_PASS env)) id d1
   = (d1, Ok (Response 200 (JObj {[ "ok" := JBool true ]}))))
  ∧ (let d1 := (delete_api_grants_id env (Some (ADMIN_PASS env)) id d).1 in
     delete_api_grants_id env (Some (ADMIN_PASS env)) id d1
     = (d1, Ok (Response 200 (JObj {[ "ok" := JBool true ]})))).
Proof.
  split; intros d1; subst d1.
  - unfold delete_api_clients_id. rewrite !requireAdmin_accepts.
    unfold mbind, M_bind, mret, M_ret, delete_client, exec.
    cbn [fst clients grants]. rewrite filter_filter_same.
    rewrite (decide_False (P := id ∈ ClientRow.id <$> filter _ _)); [done|].
    by intros (c & -> & [Hne _]%list_elem_of_filter)%list_elem_of_fmap.
  - unfold delete_api_grants_id. rewrite !requireAdmin_accepts.
    unfold mbind, M_bind, mret, M_ret, delete_grant, exec.
    cbn [fst clients grants]. by rewrite filter_filter_same.
Qed.

(** ** Which table a route can touch *)

(** X12. The client create and update never touch the grants table; the
    four grant routes never touch the clients table; the two reads touch
    nothing. Only the client delete can change both tables. *)
Theorem routes_touch_their_table (env : process_env) (r : request) (d : db) :
  let d' := (handle env r d).1 in
  match r with
  | GET_api_clients _ | GET_api_client _ => d' = d
  | POST_api_clients _ _ _ _ | PUT_api_clients_id _ _ _ _ =>
      grants d' = grants d
  | POST_api_clients_grants _ _ _ _ | PUT_api_grants_id _ _ _
  | DELETE_api_grants_id _ _ | PUT_api_clients_grants _ _ _ _ =>
      clients d' = clients d
  | DELETE_api_clients_id _ _ => True
  end.
Proof.
  intros d'. subst d'.
  destruct r as [auth|id|now rnd auth b|now auth id b|auth id|rnd auth cid b
                |auth id b|auth id|rnd auth cid b]; simpl; [..|done| | | |].
  - unfold get_api_clients, requireAdmin. by case_decide.
  - unfold get_api_client, mbind, M_bind, query. simpl.
    by destruct (select_client id d).
  - unfold post_api_clients, requireAdmin. case_decide; [done|].
    unfold mbind, M_bind, insert_client.
    destruct (bind (ClientBody.name b)); [|done]. by case_decide.
  - unfold put_api_clients_id, requireAdmin. case_decide; [done|].
    unfold mbind, M_bind.
    pose proof (update_client_grants now (bind (ClientBody.name b))
      (Some (ClientBody.contact b ||| ""))
      (Some (ClientBody.sector b ||| ""))
      (Some (ClientBody.email b ||| ""))
      (Some (ClientBody.phone b ||| ""))
      (Some (ClientBody.message b ||| ""))
      (Some (ClientBody.presenter b ||| DEFAULT_presenter)) id d) as Hg.
    by destruct (update_client _ _ _ _ _ _ _ _ _ d) as [d1 [[]|e]].
  - unfold post_api_clients_grants, requireAdmin. case_decide; [done|].
    unfold mbind, M_bind, insert_grant_default_order, insert_grant.
    by repeat case_decide.
  - unfold put_api_grants_id, requireAdmin. by case_decide.
  - unfold delete_api_grants_id, requireAdmin. by case_decide.
  - unfold put_api_clients_grants, requireAdmin. case_decide; [done|].
    apply (preserves_bind (λ d0, clients d0 = clients d)); [|intros []|done].
    { by intros d0 Hd0. }
    apply preserves_bind; [|by intros [] d0 Hd0].
    apply preserves_forEach. intros g i. unfold bulk_callback.
    apply preserves_bind; [apply preserves_properties|].
    intros g0 d0 Hd0. unfold insert_grant. by repeat case_decide.
Qed.

(** ** Bulk replace for an id that names no client *)

(** X13. In a store whose grants all reference a client, an authorized
    bulk replace for an id that names no client never stores a grant and
    leaves the store as it was: it answers [{ok: true}] for the empty list
    and throws for anything else. *)
Theorem bulk_replace_unknown_client (env : process_env) (rnd : nat → string)
    (cid : string) (body : BulkBody.t) (d : db) :
  references_ok d →
  cid ∉ ClientRow.id <$> clients d →
  (BulkBody.grants body = Val [] →
   put_api_clients_grants env rnd (Some (ADMIN_PASS env)) cid body d
   = (d, Ok (Response 200 (JObj {[ "ok" := JBool true ]}))))
  ∧ (BulkBody.grants body ≠ Val [] →
     ∃ e, put_api_clients_grants env rnd (Some (ADMIN_PASS env)) cid body d
          = (d, Throw e)).
Proof.
  intros Hd Hcid.
  assert (filter (λ g, GrantRow.client_id g ≠ cid) (grants d) = grants d)
    as Hkeep.
  { apply filter_all, Forall_forall. intros g Hg%Hd Heq. by rewrite Heq in Hg. }
  assert (put_api_clients_grants env rnd (Some (ADMIN_PASS env)) cid body d
          = match forEach (BulkBody.grants body) (bulk_callback rnd cid) d with
            | (d', Ok _) => (d', Ok (res_json ok_true))
            | (d', Throw e) => (d', Throw e)
            end) as ->.
  { rewrite put_api_clients_grants_authorized.
    unfold mbind, M_bind, delete_grants_of, exec. by rewrite Hkeep, db_eta. }
  destruct body as [[| |[|g l]]]; simpl; split; try done; intros _;
    try (by eexists).
  unfold mbind, M_bind, bulk_callback.
  destruct g as [| |g]; simpl; try (by eexists).
  unfold mbind, M_bind, mret, M_ret, insert_grant.
  case_decide; [by eexists|]. rewrite decide_False by done. by eexists.
Qed.

Lemma bulk_replace_unknown_client_witness :
  let body := BulkBody.Build (Val [Val (grant_named "X")]) in
  references_ok store0
  ∧ ("nobody" ∉ ClientRow.id <$> clients store0)
  ∧ BulkBody.grants body ≠ Val []
  ∧ ∃ e, put_api_clients_grants env0 ids0 (Some (ADMIN_PASS env0)) "nobody"
           body store0
         = (store0, Throw e).
Proof.
  intros body.
  assert (references_ok store0) as H1
    by exact (reachable_references env0 store0 store0_reachable).
  assert ("nobody" ∉ ClientRow.id <$> clients store0) as H2
    by (apply (bool_decide_unpack _); reflexivity).
  assert (BulkBody.grants body ≠ Val []) as H3 by discriminate.
  split_and!; [done..|].
  exact (proj2 (bulk_replace_unknown_client env0 ids0 "nobody" body store0
                  H1 H2) H3).
Defined.

(** ** The list of clients *)

Lemma string_leb_trans (s1 s2 s3 : string) :
  String.leb s1 s2 = true → String.leb s2 s3 = true → String.leb s1 s3 = true.
Proof.
  unfold String.leb. revert s2 s3.
  induction s1 as [|c1 s1 IH]; intros [|c2 s2] [|c3 s3]; simpl; try done.
  unfold Ascii.compare.
  destruct (N.compare_spec (Ascii.N_of_ascii c1) (Ascii.N_of_ascii c2)),
    (N.compare_spec (Ascii.N_of_ascii c2) (Ascii.N_of_ascii c3)),
    (N.compare_spec (Ascii.N_of_ascii c1) (Ascii.N_of_ascii c3));
    try done; try lia.
  apply IH.
Qed.

#[global] Instance by_created_at_desc_total : Total by_created_at_desc.
Proof.
  intros c1 c2. unfold by_created_at_desc.
  destruct (String.leb_total (ClientRow.created_at c1)
              (ClientRow.created_at c2)); auto.
Qed.

#[global] Instance by_created_at_desc_trans : Transitive by_created_at_desc.
Proof.
  intros c1 c2 c3 H12 H23. unfold by_created_at_desc in *.
  by eapply string_leb_trans.
Qed.

(** X14. The authorized list of clients has exactly one entry per row of
    the clients table, ordered newest first by [created_at], each entry
    being the client's columns plus its [grants] array. *)
Theorem clients_listed_newest_first (env : process_env) (d : db) :
  ∃ cs,
    cs ≡ₚ clients d
    ∧ StronglySorted
        (λ c1 c2, String.leb (ClientRow.created_at c2)
                    (ClientRow.created_at c1) = true) cs
    ∧ get_api_clients env (Some (ADMIN_PASS env)) d
      = (d, Ok (Response 200 (JArr ((λ c, JObj (<["grants" :=
           JArr ((λ g, JObj (grant_obj g)) <$>
                 select_grants (ClientRow.id c) d)]>
           (client_obj c))) <$> cs)))).
Proof.
  exists (select_clients d). split_and!.
  - apply order_by_Permutation.
  - apply (order_by_sorted by_created_at_desc).
  - apply get_api_clients_authorized.
Qed.

(** ** The public read against the admin list *)

Lemma NoDup_fmap_inj_on {A B} (f : A → B) (l : list A) x y :
  NoDup (f <$> l) → x ∈ l → y ∈ l → f x = f y → x = y.
Proof.
  induction l as [|z l IH]; [by intros _ ?%not_elem_of_nil|].
  rewrite fmap_cons, NoDup_cons, !elem_of_cons.
  intros [Hz Hl] [->|Hx] [->|Hy] Hf; [done| | |by apply IH].
  - destruct Hz. rewrite Hf. by apply list_elem_of_fmap_2.
  - destruct Hz. rewrite <- Hf. by apply list_elem_of_fmap_2.
Qed.

Lemma select_client_unique c d :
  NoDup (ClientRow.id <$> clients d) → c ∈ clients d →
  select_client (ClientRow.id c) d = Some c.
Proof.
  intros Hnd Hc.
  destruct (select_client_is_Some (ClientRow.id c) d) as [c' Hc'].
  { apply list_elem_of_fmap. eauto. }
  rewrite Hc'. f_equal.
  apply select_client_Some in Hc' as [Hid Hin].
  by apply (NoDup_fmap_inj_on ClientRow.id (clients d)).
Qed.

(** X15. For every client of a store with unique client ids, the public
    read returns what the admin list has for that client, except for the
    notes: the client's properties are the same, and the two [grants]
    arrays hold the same grants in the same order, where the admin's
    object has a [notes] property, the public one has none, and every
    other property is equal. *)
Theorem public_read_is_admin_entry_without_notes (env : process_env)
    (d : db) (c : ClientRow.t) :
  NoDup (ClientRow.id <$> clients d) →
  c ∈ clients d →
  ∃ l admin public,
    get_api_clients env (Some (ADMIN_PASS env)) d
    = (d, Ok (Response 200 (JArr l)))
    ∧ JObj admin ∈ l
    ∧ admin !! "id" = Some (JStr (ClientRow.id c))
    ∧ get_api_client (ClientRow.id c) d
      = (d, Ok (Response 200 (JObj public)))
    ∧ (∀ k, k ≠ "grants" → public !! k = admin !! k)
    ∧ ∃ gs gs',
        admin !! "grants" = Some (JArr gs)
        ∧ public !! "grants" = Some (JArr gs')
        ∧ Forall2 (λ a p, ∃ oa op,
                     a = JObj oa ∧ p = JObj op
                     ∧ is_Some (oa !! "notes")
                     ∧ op !! "notes" = None
                     ∧ ∀ k, k ≠ "notes" → op !! k = oa !! k)
            gs gs'.
Proof.
  intros Hnd Hc. eexists _, _, _. split_and!.
  - apply get_api_clients_authorized.
  - apply list_elem_of_fmap. exists c. split; [done|].
    by apply elem_of_order_by.
  - by rewrite lookup_insert_ne.
  - apply get_api_client_found. by apply select_client_unique.
  - intros k Hk. by rewrite !lookup_insert_ne.
  - eexists _, _. split_and!; [apply lookup_insert_eq..|].
    apply Forall2_fmap, Forall_Forall2_diag, Forall_forall.
    intros g _. eexists _, _. split_and!; [done|done|by eexists| |].
    + apply lookup_delete_eq.
    + intros k Hk. by apply lookup_delete_ne.
Qed.

Lemma public_read_is_admin_entry_without_notes_witness :
  NoDup (ClientRow.id <$> clients store0)
  ∧ ∃ c l admin public gs gs',
      c ∈ clients store0
      ∧ get_api_clients env0 (Some (ADMIN_PASS env0)) store0
        = (store0, Ok (Response 200 (JArr l)))
      ∧ JObj admin ∈ l
      ∧ get_api_client (ClientRow.id c) store0
        = (store0, Ok (Response 200 (JObj public)))
      ∧ admin !! "grants" = Some (JArr gs)
      ∧ public !! "grants" = Some (JArr gs')
      ∧ length gs = 2%nat
      ∧ Forall2 (λ a p, ∃ oa op,
                   a = JObj oa ∧ p = JObj op
                   ∧ is_Some (oa !! "notes")
                   ∧ op !! "notes" = None
                   ∧ ∀ k, k ≠ "notes" → op !! k = oa !! k)
          gs gs'.
Proof.
  assert (NoDup (ClientRow.id <$> clients store0)) as H1
    by (apply (bool_decide_unpack _); reflexivity).
  split; [exact H1|].
  assert (∃ c, c ∈ clients store0 ∧ ClientRow.id c = "c1") as (c & H2 & Hid)
    by (eexists; split; [apply list_elem_of_here|reflexivity]).
  destruct (public_read_is_admin_entry_without_notes env0 store0 c H1 H2)
    as (l & admin & public & Hl & Hin & Hcid & Hget & _ & gs & gs' & Ha & Hp & Hf).
  exists c, l, admin, public, gs, gs'. split_and!; [done..| |done].
  rewrite Hid in Hget. vm_compute in Hget. injection Hget as <-.
  apply Forall2_length in Hf. rewrite Hf.
  vm_compute in Hp. injection Hp as <-. reflexivity.
Defined.

(** X16. In a store whose grants all reference a client, a client just
    created has no grants: the public read of its id returns an empty
    [grants] array. *)
Theorem new_client_has_no_grants (env : process_env) (now id name : string)
    (body : ClientBody.t) (d : db) :
  references_ok d →
  ClientBody.name body = Val name →
  id ∉ ClientRow.id <$> clients d →
  ∃ d' o,
    post_api_clients env now id (Some (ADMIN_PASS env)) body d
    = (d', Ok (Response 200
                 (JObj (<["name" := JStr name]> {[ "id" := JStr id ]}))))
    ∧ get_api_client id d' = (d', Ok (Response 200 (JObj o)))
    ∧ o !! "id" = Some (JStr id)
    ∧ o !! "grants" = Some (JArr []).
Proof.
  intros Hd Hname Hid. eexists _, _. split_and!.
  - unfold post_api_clients. rewrite requireAdmin_accepts.
    unfold mbind, M_bind, insert_client. rewrite Hname. simpl.
    by rewrite decide_False.
  - apply get_api_client_found. by apply select_client_appended.
  - by rewrite lookup_insert_ne.
  - rewrite lookup_insert_eq. do 2 f_equal.
    unfold select_grants. cbn [grants]. rewrite filter_none; [done|].
    apply Forall_forall. intros g Hg%Hd Heq. by rewrite Heq in Hg.
Qed.

Lemma new_client_has_no_grants_witness :
  references_ok store0
  ∧ ClientBody.name acme = Val "Acme"
  ∧ ("c2" ∉ ClientRow.id <$> clients store0)
  ∧ ∃ d' o,
      post_api_clients env0 "2024-01-02 09:00:00" "c2"
        (Some (ADMIN_PASS env0)) acme store0
      = (d', Ok (Response 200
                   (JObj (<["name" := JStr "Acme"]> {[ "id" := JStr "c2" ]}))))
      ∧ get_api_client "c2" d' = (d', Ok (Response 200 (JObj o)))
      ∧ o !! "id" = Some (JStr "c2")
      ∧ o !! "grants" = Some (JArr []).
Proof.
  assert (references_ok store0) as H1
    by exact (reachable_references env0 store0 store0_reachable).
  assert (ClientBody.name acme = Val "Acme") as H2 by reflexivity.
  assert ("c2" ∉ ClientRow.id <$> clients store0) as H3
    by (apply (bool_decide_unpack _); reflexivity).
  split_and!; [done..|].
  exact (new_client_has_no_grants env0 "2024-01-02 09:00:00" "c2" "Acme"
           acme store0 H1 H2 H3).
Defined.

(** ** A single create after a bulk replace *)

Lemma order_by_snoc_first {A} (R : relation A) `{!RelDecision R} l x :
  StronglySorted R l → Forall (λ y, ¬ R y x) l →
  order_by R (l ++ [x]) = x :: l.
Proof.
  induction 1 as [|y l Hl IH Hy]; [done|].
  intros [Hyx Hlx]%Forall_cons. unfold order_by in *. cbn [app foldr].
  rewrite IH by done. cbn [insert_row]. rewrite decide_False by done.
  by rewrite insert_row_head.
Qed.

(** X17. A grant created on its own after a successful bulk replace of a
    non-empty list is stored with [sort_order] 0 and is therefore read
    back in second place, right after the first grant of the replaced
    list and before all the others. *)
Theorem create_after_bulk_is_read_second (env : process_env)
    (rnd : nat → string) (cid : string) (body : BulkBody.t) (id : string)
    (gbody : GrantBody.t) (d d1 d2 : db) (resp1 resp2 : response)
    (r0 : GrantRow.t) (rest : list GrantRow.t) :
  put_api_clients_grants env rnd (Some (ADMIN_PASS env)) cid body d
  = (d1, Ok resp1) →
  select_grants cid d1 = r0 :: rest →
  post_api_clients_grants env id (Some (ADMIN_PASS env)) cid gbody d1
  = (d2, Ok resp2) →
  ∃ g,
    GrantRow.id g = id
    ∧ GrantRow.sort_order g = 0
    ∧ grant_fields_stored gbody g
    ∧ select_grants cid d2 = r0 :: g :: rest.
Proof.
  intros (_ & rows & Hg1 & Hsel & _ & Hrows)%put_api_clients_grants_effect
    Hrows0
    (_ & _ & _ & g & -> & Hrowid & Hid & Hcid & Hso & Hstored)%post_api_clients_grants_inv.
  rewrite Hrows0 in Hsel. subst rows.
  exists g. split_and!; [done..|].
  assert (∀ j row, (r0 :: rest) !! j = Some row →
            GrantRow.client_id row = cid
            ∧ GrantRow.sort_order row = Z.of_nat (0 + j)) as Hkeys.
  { intros j row Hj.
    destruct (Hrows j row Hj) as (_ & _ & _ & _ & _ & ? & ? & _). done. }
  assert (StronglySorted by_sort_order_rowid (r0 :: rest)) as Hsorted.
  { apply (sort_order_sequence_sorted _ 0). intros j row Hj.
    by apply Hkeys. }
  apply StronglySorted_cons in Hsorted as [Hr0 Hrest].
  unfold select_grants. cbn [grants]. rewrite Hg1, !filter_app.
  rewrite filter_complement_nil, (filter_all _ (r0 :: rest)).
  2:{ apply Forall_forall. intros row [j Hj]%list_elem_of_lookup.
      by apply (Hkeys j). }
  rewrite filter_cons_True, filter_nil by done. cbn [app].
  change (order_by by_sort_order_rowid (r0 :: rest ++ [g]))
    with (insert_row by_sort_order_rowid r0
            (order_by by_sort_order_rowid (rest ++ [g]))).
  rewrite order_by_snoc_first; [|done|].
  - apply insert_row_head. constructor; [|done].
    right. destruct (Hkeys 0%nat r0 eq_refl) as [_ ->]. split; [by rewrite Hso|].
    rewrite Hrowid. apply Z.lt_le_incl, next_rowid_gt.
    rewrite Hg1. apply elem_of_app. right. apply list_elem_of_here.
  - apply Forall_forall. intros row [j Hj]%list_elem_of_lookup.
    destruct (Hkeys (S j) row Hj) as [_ Hsj].
    unfold by_sort_order_rowid. lia.
Qed.

Lemma create_after_bulk_is_read_second_witness :
  let body := BulkBody.Build
                (Val [Val (grant_named "X"); Val (grant_named "Y")]) in
  let d1 := (put_api_clients_grants env0 ids0 key0 "c1" body store0).1 in
  let d2 := (post_api_clients_grants env0 "late" key0 "c1" (grant_named "Z")
               d1).1 in
  put_api_clients_grants env0 ids0 (Some (ADMIN_PASS env0)) "c1" body store0
  = (d1, Ok (Response 200 (JObj {[ "ok" := JBool true ]})))
  ∧ post_api_clients_grants env0 "late" (Some (ADMIN_PASS env0)) "c1"
      (grant_named "Z") d1
    = (d2, Ok (Response 200 (JObj {[ "id" := JStr "late" ]})))
  ∧ GrantRow.id <$> select_grants "c1" d1 = ["n0"; "n1"]
  ∧ GrantRow.id <$> select_grants "c1" d2 = ["n0"; "late"; "n1"].
Proof.
  intros body d1 d2.
  assert (put_api_clients_grants env0 ids0 (Some (ADMIN_PASS env0)) "c1" body
            store0
          = (d1, Ok (Response 200 (JObj {[ "ok" := JBool true ]})))) as H1
    by (vm_compute; reflexivity).
  assert (post_api_clients_grants env0 "late" (Some (ADMIN_PASS env0)) "c1"
            (grant_named "Z") d1
          = (d2, Ok (Response 200 (JObj {[ "id" := JStr "late" ]})))) as H3
    by (vm_compute; reflexivity).
  assert (∃ r0 rest, select_grants "c1" d1 = r0 :: rest
                     ∧ GrantRow.id <$> (r0 :: rest) = ["n0"; "n1"])
    as (r0 & rest & H2 & Hids).
  { eexists _, _. split; vm_compute; reflexivity. }
  destruct (create_after_bulk_is_read_second env0 ids0 "c1" body "late"
              (grant_named "Z") store0 d1 d2 _ _ r0 rest H1 H2 H3)
    as (g & Hid & _ & _ & Hsel).
  split_and!; [done|done|by rewrite H2|].
  rewrite Hsel. rewrite !fmap_cons in *. rewrite Hid.
  injection Hids as -> ->. done.
Defined.

(** ** Update, then read *)

Lemma head_fmap_list {A B} (f : A → B) (l : list A) :
  head (f <$> l) = f <$> head l.
Proof. by destruct l. Qed.

(** X18. After an authorized update of a client the public read of that id
    returns the submitted name, the other fields under the default
    policy, the [created_at] the client had, [updated_at = now], and the
    same grants as before the update. *)
Theorem client_update_then_read (env : process_env) (now id name : string)
    (body : ClientBody.t) (d : db) (c : ClientRow.t) :
  ClientBody.name body = Val name →
  select_client id d = Some c →
  ∃ d' o,
    put_api_clients_id env now (Some (ADMIN_PASS env)) id body d
    = (d', Ok (Response 200 (JObj {[ "ok" := JBool true ]})))
    ∧ get_api_client id d' = (d', Ok (Response 200 (JObj o)))
    ∧ o !! "id" = Some (JStr id)
    ∧ o !! "name" = Some (JStr name)
    ∧ client_fields_returned body o
    ∧ o !! "created_at" = Some (JStr (ClientRow.created_at c))
    ∧ o !! "updated_at" = Some (JStr now)
    ∧ o !! "grants"
      = Some (JArr ((λ g, JObj (without_notes (grant_obj g))) <$>
                    select_grants id d)).
Proof.
  intros Hname Hc. destruct (select_client_Some _ _ _ Hc) as [Hid Hin].
  set (f := λ c0 : ClientRow.t,
         if decide (ClientRow.id c0 = id)
         then ClientRow.Build (ClientRow.id c0) name
                (Some (ClientBody.contact body ||| ""))
                (Some (ClientBody.sector body ||| ""))
                (Some (ClientBody.email body ||| ""))
                (Some (ClientBody.phone body ||| ""))
                (Some (ClientBody.message body ||| ""))
                (Some (ClientBody.presenter body ||| DEFAULT_presenter))
                (ClientRow.created_at c0) now
         else c0).
  assert (put_api_clients_id env now (Some (ADMIN_PASS env)) id body d
          = (Db (f <$> clients d) (grants d),
             Ok (Response 200 (JObj {[ "ok" := JBool true ]})))) as Hput.
  { unfold put_api_clients_id. rewrite requireAdmin_accepts.
    unfold mbind, M_bind, update_client. rewrite Hname. simpl.
    rewrite decide_True; [done|]. apply list_elem_of_fmap. eauto. }
  assert (select_client id (Db (f <$> clients d) (grants d)) = Some (f c))
    as Hsel.
  { unfold select_client in *. cbn [clients].
    rewrite filter_fmap_keys, head_fmap_list, Hc; [done|].
    intros c0. unfold f. by case_decide. }
  assert (client_fields_stored body (f c)) as Hstored.
  { unfold f. rewrite decide_True by done. unfold client_fields_stored.
    simpl. split_and!; auto. }
  eexists _, _. split; [exact Hput|].
  split; [by apply get_api_client_found|].
  unfold f in *. rewrite decide_True in * by done.
  split_and!; try (by rewrite lookup_insert_ne; [rewrite ?Hid|]).
  - by apply client_obj_returns.
  - by rewrite lookup_insert_eq.
Qed.

Lemma client_update_then_read_witness :
  let body := ClientBody.Build (Val "Acme Ltd") (Val "Dana") Undefined Null
                Undefined Undefined Undefined in
  ClientBody.name body = Val "Acme Ltd"
  ∧ ∃ c d' o,
      select_client "c1" store0 = Some c
      ∧ put_api_clients_id env0 "2024-02-01 08:00:00"
          (Some (ADMIN_PASS env0)) "c1" body store0
        = (d', Ok (Response 200 (JObj {[ "ok" := JBool true ]})))
      ∧ get_api_client "c1" d' = (d', Ok (Response 200 (JObj o)))
      ∧ o !! "name" = Some (JStr "Acme Ltd")
      ∧ o !! "updated_at" = Some (JStr "2024-02-01 08:00:00").
Proof.
  intros body.
  assert (ClientBody.name body = Val "Acme Ltd") as H1 by reflexivity.
  split; [exact H1|].
  assert (∃ c, select_client "c1" store0 = Some c) as [c H2]
    by (eexists; reflexivity).
  destruct (client_update_then_read env0 "2024-02-01 08:00:00" "c1"
              "Acme Ltd" body store0 c H1 H2)
    as (d' & o & Hput & Hget & _ & Hn & _ & _ & Hu & _).
  by exists c, d', o.
Defined.

(** ** One client's grants and the other clients *)

Lemma select_grants_snoc_other cid cid' cs gs row :
  GrantRow.client_id row = cid → cid' ≠ cid →
  select_grants cid' (Db cs (gs ++ [row])) = select_grants cid' (Db cs gs).
Proof.
  intros Hrow Hne. unfold select_grants. cbn [grants].
  rewrite filter_app, filter_cons_False, filter_nil, app_nil_r; [done|].
  rewrite Hrow. by intros ->.
Qed.

Lemma select_grants_other_of_filter cid cid' (d d' : db) :
  filter (λ g, GrantRow.client_id g ≠ cid) (grants d')
  = filter (λ g, GrantRow.client_id g ≠ cid) (grants d) →
  cid' ≠ cid →
  select_grants cid' d' = select_grants cid' d.
Proof.
  intros Hf Hne. unfold select_grants. f_equal.
  assert (∀ l : list GrantRow.t,
            filter (λ g, GrantRow.client_id g = cid') l
            = filter (λ g, GrantRow.client_id g = cid')
                (filter (λ g, GrantRow.client_id g ≠ cid) l)) as Hsplit.
  { intros l. rewrite list_filter_filter. apply list_filter_iff.
    intros g. split; [|tauto]. intros Hg. split; [done|]. by rewrite Hg. }
  by rewrite (Hsplit (grants d')), (Hsplit (grants d)), Hf.
Qed.

(** X19. Creating a grant for a client, bulk-replacing the grants of a
    client or deleting a client, whatever the outcome, never changes what
    is read for another client: the grants query of every other client
    id returns what it returned before. *)
Theorem other_clients_reads_unchanged (env : process_env)
    (auth : option string) (cid cid' : string) (d : db) :
  cid' ≠ cid →
  (∀ rnd body,
     select_grants cid' (post_api_clients_grants env rnd auth cid body d).1
     = select_grants cid' d)
  ∧ (∀ rnd body,
       select_grants cid' (put_api_clients_grants env rnd auth cid body d).1
       = select_grants cid' d)
  ∧ select_grants cid' (delete_api_clients_id env auth cid d).1
    = select_grants cid' d.
Proof.
  intros Hne. split_and!.
  - intros rnd body. unfold post_api_clients_grants, requireAdmin.
    case_decide; [done|].
    unfold mbind, M_bind, insert_grant_default_order.
    destruct (insert_grant _ _ _ _ _ _ _ _ _ _ _ _ d) as [d1 r1] eqn:Hins.
    apply insert_grant_inv in Hins as [[-> [e ->]]|(-> & _ & _ & ->)];
      [done|].
    cbn [fst mret M_ret]. rewrite <- (db_eta d) at 3.
    by apply (select_grants_snoc_other cid).
  - intros rnd body.
    destruct (decide (auth = Some (ADMIN_PASS env))) as [->|Hauth].
    + destruct (put_api_clients_grants env rnd (Some (ADMIN_PASS env)) cid
                  body d) as [d' r] eqn:Hput.
      destruct (put_api_clients_grants_effect _ _ _ _ _ _ _ Hput)
        as (_ & rows & Hg & _ & _ & Hrows).
      apply (select_grants_other_of_filter cid); [|done]. cbn [fst].
      rewrite Hg, filter_app, (filter_none _ rows), app_nil_r.
      * apply filter_filter_same.
      * apply Forall_forall. intros row [j Hj]%list_elem_of_lookup.
        destruct (Hrows j row Hj) as (_ & _ & _ & _ & _ & Hcid & _).
        by intros [].
    + unfold put_api_clients_grants. by rewrite requireAdmin_rejects.
  - unfold delete_api_clients_id, requireAdmin. case_decide; [done|].
    unfold mbind, M_bind, mret, M_ret, delete_client, exec. cbn [fst].
    case_decide; [|by rewrite <- (db_eta d) at 2].
    apply (select_grants_other_of_filter cid); [|done]. cbn [grants].
    apply filter_filter_same.
Qed.

Lemma other_clients_reads_unchanged_witness :
  let d := (post_api_clients env0 "2024-01-02 09:00:00" "c2" key0 acme
              store0).1 in
  "c1" ≠ "c2"
  ∧ select_grants "c1"
      (put_api_clients_grants env0 ids0 key0 "c2"
         (BulkBody.Build (Val [Val (grant_named "X")])) d).1
    = select_grants "c1" d.
Proof.
  intros d. assert ("c1" ≠ "c2") as H by discriminate.
  split; [exact H|].
  exact (proj1 (proj2 (other_clients_reads_unchanged env0 key0 "c2" "c1" d H))
           ids0 (BulkBody.Build (Val [Val (grant_named "X")]))).
Defined.
